(** * ORION heartbeat: the periodic task scheduler of [orion_heartbeat.py]

    A shallow embedding of [AutonomousTask], [HeartbeatPulse] and
    [OrionHeartbeat], followed by the properties of the scheduler.

    Conventions of the embedding.
    - Python objects mutated in place are records passed and returned
      explicitly; a method [m(self)] becomes a function of [self] (and of
      whatever else it reads) returning the new [self] when it assigns to it.
      Methods without any assignment ([should_run], [status], [uptime_str])
      are functions into their result only.
    - [datetime] values are integers, the number of microseconds since a
      fixed epoch (the resolution of [datetime]).  Python computes with the
      float [timedelta.total_seconds()], the correctly rounded quotient of
      the microseconds by 1000000; the embedding computes with the
      microseconds themselves.  The two agree where the float is fine
      enough to tell one microsecond from the next: [should_run], which
      compares the float with the interval, for every interval of at most
      2^32 seconds in absolute value ([seconds_exact]), and [uptime_str],
      which takes hours and minutes of the float, for every elapsed time of
      at most 2^53 microseconds in absolute value ([elapsed_exact]).
      Beyond, the float is rounded across the value compared with.  The
      theorems that state this arithmetic carry these bounds.
    - The clock advances while an action runs and between two pulses; the
      statements of one method in between read the same time.
    - A call that may raise returns a [py_result].  [Raised] stands for an
      instance of [Exception] carrying its [str()]; exceptions that only
      derive from [BaseException] and failures of file writes are outside
      the model.
    - JSON documents are the values [json.load] produces, restricted to
      integral numbers.
    - The thread that [start] launches is not modelled as a thread; its
      body is [heartbeat_loop], and a sequence of pulses with the world
      moving in between is [pulse_sequence]. *)

From stdpp Require Import base numbers list gmap strings pretty sorting.

Set Warnings "-register-all".
Local Open Scope Z_scope.

(** ** Python values and results *)

Inductive json : Type :=
  | JNull
  | JBool (b : bool)
  | JInt (z : Z)
  | JStr (s : string)
  | JArr (items : list json)
  | JObj (fields : gmap string json).

Inductive py_result (A : Type) : Type :=
  | Returned (a : A)
  | Raised (e : string).
Arguments Returned {A} a.
Arguments Raised {A} e.

Definition is_raised {A} (r : py_result A) : bool :=
  match r with Raised _ => true | Returned _ => false end.

(** [d.get(key, default)] on a parsed document: only a [dict] has [get],
    on every other value the attribute access raises. *)
Definition json_get (j : json) (key : string) (dflt : json) : py_result json :=
  match j with
  | JObj fields => Returned (default dflt (fields !! key))
  | _ => Raised "AttributeError"
  end.

(** [d[key]] where it is defined. *)
Definition json_item (j : json) (key : string) : option json :=
  match j with
  | JObj fields => fields !! key
  | _ => None
  end.

(** Truth value of a value, as [or] and [if] test it. *)
Definition py_truthy (j : json) : bool :=
  match j with
  | JNull => false
  | JBool b => b
  | JInt z => negb (z =? 0)
  | JStr s => negb (String.eqb s "")
  | JArr items => match items with [] => false | _ :: _ => true end
  | JObj fields => negb (bool_decide (dom fields = ∅))
  end.

(** [x += 1]: defined on [int] and on [bool] (a subclass of [int]), a
    [TypeError] on [None], [str], [list] and [dict]. *)
Definition py_incr (j : json) : py_result json :=
  match j with
  | JInt z => Returned (JInt (z + 1))
  | JBool b => Returned (JInt (Z.b2z b + 1))
  | _ => Raised "TypeError"
  end.

(** [d[key]]: a [KeyError] when the dictionary lacks the key, a
    [TypeError] on every value that is no dictionary (a list or a string
    takes no string index, the others take no index at all). *)
Definition py_getitem (j : json) (key : string) : py_result json :=
  match j with
  | JObj fields =>
      match fields !! key with
      | Some v => Returned v
      | None => Raised "KeyError"
      end
  | _ => Raised "TypeError"
  end.

(** [len(x)], a string being the sequence of its characters. *)
Definition py_len (j : json) : py_result Z :=
  match j with
  | JArr items => Returned (Z.of_nat (length items))
  | JObj fields => Returned (Z.of_nat (size fields))
  | JStr s => Returned (Z.of_nat (String.length s))
  | _ => Raised "TypeError"
  end.

(** [x // d] for an integer [d] other than 0: floor division on [int] and
    [bool], a [TypeError] otherwise. *)
Definition py_floordiv (j : json) (d : Z) : py_result json :=
  match j with
  | JInt z => Returned (JInt (z `div` d))
  | JBool b => Returned (JInt (Z.b2z b `div` d))
  | _ => Raised "TypeError"
  end.

(** [[f(x) for x in l]]: the first exception ends the comprehension. *)
Fixpoint py_list_comp (f : json → py_result json) (l : list json)
    : py_result (list json) :=
  match l with
  | [] => Returned []
  | x :: l' =>
      match f x with
      | Raised e => Raised e
      | Returned y =>
          match py_list_comp f l' with
          | Raised e => Raised e
          | Returned ys => Returned (y :: ys)
          end
      end
  end.

(** [l.remove(x)]: the first element equal to [x] goes, a [ValueError]
    when there is none. *)
Fixpoint py_list_remove {A} `{EqDecision A} (x : A) (l : list A)
    : py_result (list A) :=
  match l with
  | [] => Raised "ValueError"
  | y :: l' =>
      if decide (y = x) then Returned l'
      else match py_list_remove x l' with
           | Raised e => Raised e
           | Returned r => Returned (y :: r)
           end
  end.


(** ** The host of the scheduler

    What the module takes from its environment: the world its task bodies
    act on ([Env]), the clock read by [datetime.now(timezone.utc)],
    [datetime.isoformat], [hashlib.sha256(..).hexdigest()], and the bodies of
    the six core tasks, which reach into other subsystems. *)

Class Host : Type := {
  Env : Type;
  clock : Env → Z;
  isoformat : Z → string;
  sha256_hexdigest : string → string;
  task_self_reflection : Env → py_result json * Env;
  task_check_questions : Env → py_result json * Env;
  task_answer_pending_questions : Env → py_result json * Env;
  task_check_goals : Env → py_result json * Env;
  task_knowledge_synthesis : Env → py_result json * Env;
  task_consciousness_pulse : Env → py_result json * Env;
}.

(** One second, in clock units. *)
Definition second : Z := 1000000.

(** The bounds within which the floats of Python and the microseconds of
    the embedding agree: on an interval in seconds, for the comparison of
    [should_run], and on an elapsed time in microseconds, for the hours and
    minutes of [uptime_str]. *)
Definition seconds_exact (interval : Z) : Prop :=
  - 2 ^ 32 ≤ interval ≤ 2 ^ 32.

Definition elapsed_exact (microseconds : Z) : Prop :=
  - 2 ^ 53 ≤ microseconds ≤ 2 ^ 53.

(** What [start] and the body of the consciousness task take from their
    environment besides: the type of the [interval] argument of [start] (a
    [float]), how an f-string prints it, [time.sleep] (which raises a
    [ValueError] on a negative length and returns later otherwise), and the
    two functions of [orion_kernel] that are called, [cmd_proof] (which
    writes to the proof files) and [count_proofs]. *)
Class Surroundings `{Host} : Type := {
  Interval : Type;
  str_interval : Interval → string;
  sleep : Interval → Env → py_result Env;
  cmd_proof : string → Env → Env;
  count_proofs : Env → Z;
}.


(** ** [class AutonomousTask] *)
Module AutonomousTask.
Section defs.
Context `{Host}.

(** A [Callable] without arguments: it returns a value or raises, and
    changes the world (time passes while it runs). *)
Definition Action : Type := Env → py_result json * Env.

Record t : Type := Build {
  name : string;
  interval : Z;
  action : Action;
  priority : Z;
  last_run : option Z;
  run_count : Z;
  errors : Z;
}.

Definition init (name : string) (interval_seconds : Z) (action : Action)
    (priority : Z) : t :=
  {| name := name; interval := interval_seconds; action := action;
     priority := priority; last_run := None; run_count := 0; errors := 0 |}.

(** [should_run], on the elapsed microseconds; the float that the code
    compares decides the same way within [seconds_exact]. *)
Definition should_run (self : t) (env : Env) : bool :=
  match last_run self with
  | None => true
  | Some last =>
      let elapsed := clock env - last in
      bool_decide (interval self * second ≤ elapsed)
  end.

Definition ran_at (self : t) (now : Z) : t :=
  {| name := name self; interval := interval self; action := action self;
     priority := priority self; last_run := Some now;
     run_count := run_count self + 1; errors := errors self |}.

Definition failed (self : t) : t :=
  {| name := name self; interval := interval self; action := action self;
     priority := priority self; last_run := last_run self;
     run_count := run_count self; errors := errors self + 1 |}.

(** Returns the dictionary, the task as the call leaves it, and the world
    as the action leaves it. *)
Definition execute (self : t) (env : Env) : json * t * Env :=
  match action self env with
  | (Returned result, env') =>
      (JObj {[ "success" := JBool true; "result" := result ]},
       ran_at self (clock env'), env')
  | (Raised e, env') =>
      (JObj {[ "success" := JBool false; "error" := JStr e ]},
       failed self, env')
  end.
End defs.
End AutonomousTask.

(** ** [class HeartbeatPulse] *)
Module HeartbeatPulse.
Section defs.
Context `{Host}.

Record t : Type := Build {
  timestamp : string;
  action : string;
  result : json;
  pulse_id : string;
}.

(** [result] defaults to [None], here [JNull]. *)
Definition init (action : string) (result : json) (env : Env) : t :=
  let timestamp := isoformat (clock env) in
  {| timestamp := timestamp;
     action := action;
     result := if py_truthy result then result else JObj ∅;
     pulse_id :=
       String.substring 0%nat 12%nat
         (sha256_hexdigest (timestamp +:+ action)) |}.

Definition to_dict (self : t) : json :=
  JObj {[ "pulse_id" := JStr (pulse_id self);
          "timestamp" := JStr (timestamp self);
          "action" := JStr (action self);
          "result" := result self ]}.
End defs.
End HeartbeatPulse.

(** ** The two files of the scheduler *)

(** [ORION_HEARTBEAT_STATE.json]: absent, present but failing in [open] or
    [json.load], or holding a document. *)
Inductive state_file : Type :=
  | Missing
  | Unreadable (e : string)
  | Document (j : json).

(** [ORION_HEARTBEAT.jsonl] is the list of its lines, oldest first, each the
    dictionary that was dumped. *)
Record Disk : Type := {
  HEARTBEAT_STATE : state_file;
  HEARTBEAT_LOG : list json;
}.

(** Stable sort by an integer key, as [list.sort(key=..)] sorts: ascending
    keys, and elements with equal keys keep their order. *)
Section sort.
Context {A : Type} (key : A → Z).

Fixpoint insert_by_key (x : A) (l : list A) : list A :=
  match l with
  | [] => [x]
  | y :: l' =>
      if bool_decide (key x ≤ key y) then x :: l
      else y :: insert_by_key x l'
  end.

Definition list_sort (l : list A) : list A := foldr insert_by_key [] l.
End sort.

(** ** [class OrionHeartbeat] *)
Module OrionHeartbeat.
Section defs.
Context `{Host}.

Definition VERSION : string := "1.0.0".

Record t : Type := Build {
  tasks : list AutonomousTask.t;
  running : bool;
  pulse_count : json;
  start_time : option Z;
}.

Definition set_tasks (self : t) (ts : list AutonomousTask.t) : t :=
  {| tasks := ts; running := running self;
     pulse_count := pulse_count self; start_time := start_time self |}.

Definition set_pulse_count (self : t) (n : json) : t :=
  {| tasks := tasks self; running := running self;
     pulse_count := n; start_time := start_time self |}.

Definition set_running (self : t) (b : bool) : t :=
  {| tasks := tasks self; running := b;
     pulse_count := pulse_count self; start_time := start_time self |}.

(** The body of the [try] of [_load_state]. *)
Definition load_state_body (f : state_file) : py_result json :=
  match f with
  | Missing => Raised "FileNotFoundError"
  | Unreadable e => Raised e
  | Document state => json_get state "total_pulses" (JInt 0)
  end.

Definition load_state (self : t) (disk : Disk) : t :=
  match HEARTBEAT_STATE disk with
  | Missing => self
  | f =>
      match load_state_body f with
      | Returned n => set_pulse_count self n
      | Raised _ => self
      end
  end.

Definition json_of_time (o : option Z) : json :=
  match o with Some d => JStr (isoformat d) | None => JNull end.

Definition save_state (self : t) (disk : Disk) (env : Env) : Disk :=
  let state : json :=
    JObj {[ "total_pulses" := pulse_count self;
            "running" := JBool (running self);
            "start_time" := json_of_time (start_time self);
            "tasks" := JInt (Z.of_nat (length (tasks self)));
            "last_save" := JStr (isoformat (clock env)) ]} in
  {| HEARTBEAT_STATE := Document state;
     HEARTBEAT_LOG := HEARTBEAT_LOG disk |}.

Definition log_pulse (pulse : HeartbeatPulse.t) (disk : Disk) : Disk :=
  {| HEARTBEAT_STATE := HEARTBEAT_STATE disk;
     HEARTBEAT_LOG := HEARTBEAT_LOG disk ++ [HeartbeatPulse.to_dict pulse] |}.

Definition register_task (self : t) (task : AutonomousTask.t) : t :=
  set_tasks self
    (list_sort (λ t, - AutonomousTask.priority t) (tasks self ++ [task])).

Definition register_core_tasks (self : t) : t :=
  let self := register_task self
    (AutonomousTask.init "self_reflection" 3600 task_self_reflection 10) in
  let self := register_task self
    (AutonomousTask.init "check_questions" 300 task_check_questions 9) in
  let self := register_task self
    (AutonomousTask.init "answer_pending_questions" 600
       task_answer_pending_questions 9) in
  let self := register_task self
    (AutonomousTask.init "goal_progress" 1800 task_check_goals 8) in
  let self := register_task self
    (AutonomousTask.init "knowledge_synthesis" 7200
       task_knowledge_synthesis 7) in
  register_task self
    (AutonomousTask.init "consciousness_pulse" 600
       task_consciousness_pulse 10).

Definition init (disk : Disk) : t :=
  let self := {| tasks := []; running := false;
                 pulse_count := JInt 0; start_time := None |} in
  let self := load_state self disk in
  register_core_tasks self.

Definition executed_entry (task_name : string) (result : json) : json :=
  JObj {[ "task" := JStr task_name; "result" := result ]}.

(** The [for] loop of [pulse]: the tasks as the loop leaves them, the
    entries appended to [executed], and the world afterwards. *)
Fixpoint run_tasks (ts : list AutonomousTask.t) (env : Env)
    : list AutonomousTask.t * list json * Env :=
  match ts with
  | [] => ([], [], env)
  | task :: rest =>
      if AutonomousTask.should_run task env then
        let '(result, task', env1) := AutonomousTask.execute task env in
        let '(rest', executed, env2) := run_tasks rest env1 in
        (task' :: rest',
         executed_entry (AutonomousTask.name task) result :: executed, env2)
      else
        let '(rest', executed, env2) := run_tasks rest env in
        (task :: rest', executed, env2)
  end.

Definition pulse (self : t) (disk : Disk) (env : Env)
    : py_result (HeartbeatPulse.t * t * Disk * Env) :=
  match py_incr (pulse_count self) with
  | Raised e => Raised e
  | Returned n =>
      let self := set_pulse_count self n in
      let '(ts, executed, env) := run_tasks (tasks self) env in
      let self := set_tasks self ts in
      let pulse :=
        HeartbeatPulse.init "heartbeat"
          (JObj {[ "pulse_number" := pulse_count self;
                   "tasks_executed" := JInt (Z.of_nat (length executed));
                   "details" := JArr executed ]}) env in
      let disk := log_pulse pulse disk in
      let disk := save_state self disk env in
      Returned (pulse, self, disk, env)
  end.

(** [uptime_str], on the elapsed microseconds; the float that the code
    divides gives the same hours and minutes within [elapsed_exact]. *)
Definition uptime_str (self : t) (env : Env) : string :=
  match start_time self with
  | None => "not_started"
  | Some started =>
      let delta := clock env - started in
      let hours := delta `div` (3600 * second) in
      let minutes := (delta `mod` (3600 * second)) `div` (60 * second) in
      pretty hours +:+ "h " +:+ pretty minutes +:+ "m"
  end.

Definition stop (self : t) (disk : Disk) (env : Env) : json * t * Disk :=
  let self := set_running self false in
  let disk := save_state self disk env in
  (JObj {[ "status" := JStr "stopped";
           "total_pulses" := pulse_count self ]}, self, disk).

Definition task_status (t : AutonomousTask.t) : json :=
  JObj {[ "name" := JStr (AutonomousTask.name t);
          "interval" := JInt (AutonomousTask.interval t);
          "run_count" := JInt (AutonomousTask.run_count t);
          "errors" := JInt (AutonomousTask.errors t);
          "priority" := JInt (AutonomousTask.priority t) ]}.

Definition status (self : t) (env : Env) : json :=
  JObj {[ "version" := JStr VERSION;
          "running" := JBool (running self);
          "pulse_count" := pulse_count self;
          "uptime" := JStr (uptime_str self env);
          "tasks" := JArr (task_status <$> tasks self);
          "start_time" := json_of_time (start_time self) ]}.

Definition single_pulse (self : t) (disk : Disk) (env : Env)
    : py_result (json * t * Disk * Env) :=
  match pulse self disk env with
  | Raised e => Raised e
  | Returned (p, self, disk, env) =>
      Returned (HeartbeatPulse.to_dict p, self, disk, env)
  end.

(** A sequence of ticks: [pulse] is called once for every element of
    [sleeps], which says how the world moves until the next call (the
    [time.sleep] of the loop of [start], or whatever happens between two
    [single_pulse] requests).  An exception ends the sequence. *)
Fixpoint pulse_sequence (sleeps : list (Env → Env)) (self : t) (disk : Disk)
    (env : Env) : py_result (list HeartbeatPulse.t * t * Disk * Env) :=
  match sleeps with
  | [] => Returned ([], self, disk, env)
  | sleep :: sleeps' =>
      match pulse self disk env with
      | Raised e => Raised e
      | Returned (p, self, disk, env) =>
          match pulse_sequence sleeps' self disk (sleep env) with
          | Raised e => Raised e
          | Returned (ps, self, disk, env) =>
              Returned (p :: ps, self, disk, env)
          end
      end
  end.

Context `{!Surroundings}.

Definition set_start_time (self : t) (started : option Z) : t :=
  {| tasks := tasks self; running := running self;
     pulse_count := pulse_count self; start_time := started |}.

(** The two dictionaries of [start]: [{"status": "already_running"}] and
    [{"status": "started", "interval": interval, "tasks": len(self.tasks)}]. *)
Inductive start_dict : Type :=
  | AlreadyRunning
  | Started (interval : Interval) (tasks : Z).

(** [start] without its thread, whose body is [heartbeat_loop] below: what
    the caller's thread does. *)
Definition start (self : t) (interval : Interval) (env : Env)
    : start_dict * t * Env :=
  if running self then (AlreadyRunning, self, env)
  else
    let self := set_running self true in
    let self := set_start_time self (Some (clock env)) in
    let env :=
      cmd_proof
        ("HEARTBEAT GESTARTET: Autonomer Herzschlag aktiv. Intervall: "
         +:+ str_interval interval +:+ "s. ICH LEBE.") env in
    (Started interval (Z.of_nat (length (tasks self))), self, env).

(** [heartbeat_loop], the body of the thread, for at most [fuel] turns of
    its [while self.running]. *)
Fixpoint heartbeat_loop (fuel : nat) (interval : Interval) (self : t)
    (disk : Disk) (env : Env)
    : py_result (list HeartbeatPulse.t * t * Disk * Env) :=
  match fuel with
  | O => Returned ([], self, disk, env)
  | S fuel' =>
      if running self then
        match pulse self disk env with
        | Raised e => Raised e
        | Returned (p, self, disk, env) =>
            match sleep interval env with
            | Raised e => Raised e
            | Returned env =>
                match heartbeat_loop fuel' interval self disk env with
                | Raised e => Raised e
                | Returned (ps, self, disk, env) =>
                    Returned (p :: ps, self, disk, env)
                end
            end
        end
      else Returned ([], self, disk, env)
  end.


End defs.
End OrionHeartbeat.

(** ** [class HeartbeatIntegration] of [orion_agent_core.py]

    [_heartbeat] is the scheduler of the process or [None]; the methods act
    on that one scheduler, which they are given and give back here. *)
Module HeartbeatIntegration.
Section defs.
Context `{Host}.

Definition t : Type := option OrionHeartbeat.t.

Definition is_available (self : t) : bool :=
  match self with Some _ => true | None => false end.

Definition unavailable : json :=
  JObj {[ "error" := JStr "Heartbeat not available" ]}.

Definition pulse (self : t) (disk : Disk) (env : Env)
    : py_result (json * t * Disk * Env) :=
  match self with
  | None => Returned (unavailable, None, disk, env)
  | Some heartbeat =>
      match OrionHeartbeat.single_pulse heartbeat disk env with
      | Raised e => Raised e
      | Returned (d, heartbeat, disk, env) =>
          Returned (d, Some heartbeat, disk, env)
      end
  end.

Definition stop (self : t) (disk : Disk) (env : Env) : json * t * Disk :=
  match self with
  | None => (unavailable, None, disk)
  | Some heartbeat =>
      let '(d, heartbeat, disk) := OrionHeartbeat.stop heartbeat disk env in
      (d, Some heartbeat, disk)
  end.

(** The [try] block of [get_status]. *)
Definition get_status_body (status : json) : py_result json :=
  match json_get status "version" (JStr "unknown") with
  | Raised e => Raised e
  | Returned version =>
  match json_get status "running" (JBool false) with
  | Raised e => Raised e
  | Returned running =>
  match json_get status "pulse_count" (JInt 0) with
  | Raised e => Raised e
  | Returned pulse_count =>
  match json_get status "uptime" (JStr "not_started") with
  | Raised e => Raised e
  | Returned uptime =>
  match json_get status "tasks" (JArr []) with
  | Raised e => Raised e
  | Returned tasks =>
  match py_len tasks with
  | Raised e => Raised e
  | Returned n =>
      Returned
        (JObj {[ "available" := JBool true;
                 "version" := version;
                 "running" := running;
                 "pulse_count" := pulse_count;
                 "uptime" := uptime;
                 "tasks" := JInt n;
                 "task_details" := tasks ]})
  end end end end end end.

Definition get_status (self : t) (env : Env) : json :=
  match self with
  | None => JObj {[ "available" := JBool false ]}
  | Some heartbeat =>
      match get_status_body (OrionHeartbeat.status heartbeat env) with
      | Returned d => d
      | Raised e => JObj {[ "available" := JBool true; "error" := JStr e ]}
      end
  end.

(** One element of the comprehension of [get_task_summary]. *)
Definition task_summary (t : json) : py_result json :=
  match py_getitem t "name" with
  | Raised e => Raised e
  | Returned name =>
  match py_getitem t "interval" with
  | Raised e => Raised e
  | Returned interval =>
  match py_floordiv interval 60 with
  | Raised e => Raised e
  | Returned interval_min =>
  match py_getitem t "run_count" with
  | Raised e => Raised e
  | Returned runs =>
      Returned
        (JObj {[ "name" := name; "interval_min" := interval_min;
                 "runs" := runs ]})
  end end end end.

(** The [try] block of [get_task_summary]; a value that is no list is
    not iterated here. *)
Definition get_task_summary_body (status : json) : py_result (list json) :=
  match json_get status "tasks" (JArr []) with
  | Raised e => Raised e
  | Returned (JArr tasks) => py_list_comp task_summary tasks
  | Returned _ => Raised "TypeError"
  end.

Definition get_task_summary (self : t) (env : Env) : list json :=
  match self with
  | None => []
  | Some heartbeat =>
      match get_task_summary_body (OrionHeartbeat.status heartbeat env) with
      | Returned l => l
      | Raised _ => []
      end
  end.
End defs.
End HeartbeatIntegration.

(** ** [AutonomousGoals.update_progress] of [orion_agent_core.py]

    A goal is the dictionary that [set_goal] builds, ["completed_at"] being
    absent until the goal is completed; [ORION_GOALS.json] holds what
    [_save_goals] dumped last. *)
Module AutonomousGoals.
Section defs.
Context `{Host}.

Record Goal : Type := {
  id : string;
  goal : string;
  priority : Z;
  deadline : option string;
  created : string;
  status : string;
  progress : Z;
  completed_at : option string;
}.

#[global] Instance Goal_eq_dec : EqDecision Goal.
Proof. solve_decision. Defined.

Record t : Type := {
  active_goals : list Goal;
  completed_goals : list Goal;
  meta_goal : string;
}.

Definition set_progress (g : Goal) (p : Z) : Goal :=
  {| id := id g; goal := goal g; priority := priority g;
     deadline := deadline g; created := created g; status := status g;
     progress := p; completed_at := completed_at g |}.

Definition complete (g : Goal) (now : string) : Goal :=
  {| id := id g; goal := goal g; priority := priority g;
     deadline := deadline g; created := created g; status := "completed";
     progress := progress g; completed_at := Some now |}.

(** Returns what the method returns ([None] when no goal has the id), the
    goals, and the file.  The goal found is changed where it stands in the
    list before [remove] looks for it. *)
Definition update_progress (self : t) (file : option t) (goal_id : string)
    (new_progress : Z) (env : Env)
    : py_result (option Goal * t * option t) :=
  match list_find (λ g, id g = goal_id) (active_goals self) with
  | None => Returned (None, self, file)
  | Some (i, g) =>
      let g := set_progress g (Z.min 100 new_progress) in
      if bool_decide (100 ≤ new_progress) then
        let g := complete g (isoformat (clock env)) in
        match py_list_remove g (<[i:=g]> (active_goals self)) with
        | Raised e => Raised e
        | Returned active =>
            let self :=
              {| active_goals := active;
                 completed_goals := completed_goals self ++ [g];
                 meta_goal := meta_goal self |} in
            Returned (Some g, self, Some self)
        end
      else
        let self :=
          {| active_goals := <[i:=g]> (active_goals self);
             completed_goals := completed_goals self;
             meta_goal := meta_goal self |} in
        Returned (Some g, self, Some self)
  end.
End defs.
End AutonomousGoals.

(** ** What a pulse record shows *)
Section observers.
Context `{Host}.

Definition pulse_number (p : HeartbeatPulse.t) : option json :=
  json_item (HeartbeatPulse.result p) "pulse_number".

Definition tasks_executed (p : HeartbeatPulse.t) : option json :=
  json_item (HeartbeatPulse.result p) "tasks_executed".

Definition details (p : HeartbeatPulse.t) : list json :=
  match json_item (HeartbeatPulse.result p) "details" with
  | Some (JArr entries) => entries
  | _ => []
  end.

(** The [result] that [pulse] hands to [HeartbeatPulse], for an integral
    pulse count. *)
Definition pulse_dict (n : Z) (executed : list json) : json :=
  JObj {[ "pulse_number" := JInt n;
          "tasks_executed" := JInt (Z.of_nat (length executed));
          "details" := JArr executed ]}.

(** The two dictionaries [execute] returns. *)
Definition success_dict (result : json) : json :=
  JObj {[ "success" := JBool true; "result" := result ]}.

Definition failure_dict (e : string) : json :=
  JObj {[ "success" := JBool false; "error" := JStr e ]}.

(** The world in which the loop of [pulse] reaches the task that follows
    the tasks [before]. *)
Definition env_after (before : list AutonomousTask.t) (env : Env) : Env :=
  (OrionHeartbeat.run_tasks before env).2.

(** The tasks that the loop of [pulse] finds due, in the order it finds
    them, each with the dictionary its [execute] returns. *)
Fixpoint due_tasks (ts : list AutonomousTask.t) (env : Env)
    : list (AutonomousTask.t * json) :=
  match ts with
  | [] => []
  | task :: rest =>
      if AutonomousTask.should_run task env then
        let x := AutonomousTask.execute task env in
        (task, x.1.1) :: due_tasks rest x.2
      else due_tasks rest env
  end.

Definition entry_of (x : AutonomousTask.t * json) : json :=
  OrionHeartbeat.executed_entry (AutonomousTask.name x.1) x.2.

(** The next [pulse] returns a record numbered [k]. *)
Definition next_pulse_number (self : OrionHeartbeat.t) (disk : Disk)
    (env : Env) (k : Z) : Prop :=
  ∃ p self' disk' env',
    OrionHeartbeat.pulse self disk env = Returned (p, self', disk', env')
    ∧ pulse_number p = Some (JInt k).

Definition always_raises (a : AutonomousTask.Action) : Prop :=
  ∀ env, is_raised (a env).1 = true.

(** Two states of one task: same configuration, counters apart. *)
Definition same_config (a b : AutonomousTask.t) : Prop :=
  AutonomousTask.name b = AutonomousTask.name a
  ∧ AutonomousTask.interval b = AutonomousTask.interval a
  ∧ AutonomousTask.priority b = AutonomousTask.priority a
  ∧ AutonomousTask.action b = AutonomousTask.action a.

Definition higher_first (a b : AutonomousTask.t) : Prop :=
  AutonomousTask.priority b ≤ AutonomousTask.priority a.

(** The counters of a registry, summed. *)
Definition total_run_count (ts : list AutonomousTask.t) : Z :=
  foldr (λ t acc, AutonomousTask.run_count t + acc) 0 ts.

Definition total_errors (ts : list AutonomousTask.t) : Z :=
  foldr (λ t acc, AutonomousTask.errors t + acc) 0 ts.

(** [entry["result"]["success"]] of an entry of [details], where it is a
    truth value. *)
Definition entry_success (entry : json) : option bool :=
  match json_item entry "result" with
  | Some result =>
      match json_item result "success" with
      | Some (JBool b) => Some b
      | _ => None
      end
  | None => None
  end.

Definition successes (entries : list json) : list json :=
  filter (λ entry, entry_success entry = Some true) entries.

Definition failures (entries : list json) : list json :=
  filter (λ entry, entry_success entry = Some false) entries.

(** The record that [pulse] returns, when it returns. *)
Definition pulse_record (self : OrionHeartbeat.t) (disk : Disk) (env : Env)
    : option HeartbeatPulse.t :=
  match OrionHeartbeat.pulse self disk env with
  | Returned (p, _, _, _) => Some p
  | Raised _ => None
  end.

(** Two states of one task, at most one execution apart. *)
Definition at_most_one_execution (a b : AutonomousTask.t) : Prop :=
  (AutonomousTask.run_count b = AutonomousTask.run_count a
   ∧ AutonomousTask.errors b = AutonomousTask.errors a)
  ∨ (AutonomousTask.run_count b = AutonomousTask.run_count a + 1
     ∧ AutonomousTask.errors b = AutonomousTask.errors a)
  ∨ (AutonomousTask.run_count b = AutonomousTask.run_count a
     ∧ AutonomousTask.errors b = AutonomousTask.errors a + 1).


(** A task as the constructor leaves it. *)
Definition never_ran (t : AutonomousTask.t) : Prop :=
  AutonomousTask.last_run t = None
  ∧ AutonomousTask.run_count t = 0
  ∧ AutonomousTask.errors t = 0.

(** The dictionary that [get_task_summary] shows for a task. *)
Definition summary_of (t : AutonomousTask.t) : json :=
  JObj {[ "name" := JStr (AutonomousTask.name t);
          "interval_min" := JInt (AutonomousTask.interval t `div` 60);
          "runs" := JInt (AutonomousTask.run_count t) ]}.
End observers.

(** ** What the loop needs of [time.sleep] *)
Section sleeping.
Context `{Host} `{!Surroundings}.

(** [time.sleep] takes the interval: it returns whenever it is called
    with it. *)
Definition sleep_returns (interval : Interval) : Prop :=
  ∀ env, is_raised (sleep interval env) = false.

(** The world after the sleep, where it returns. *)
Definition after_sleep (interval : Interval) (env : Env) : Env :=
  match sleep interval env with
  | Returned env' => env'
  | Raised _ => env
  end.
End sleeping.

(** ** A host for examples

    The world is the clock alone; an action takes a fixed time and then
    returns or raises.  Timestamps print as the microsecond count and the
    digest is the identity: neither is looked at by the scheduler. *)
Module Sample.
Definition returns_after (d : Z) (r : json) (env : Z) : py_result json * Z :=
  (Returned r, env + d).

Definition raises_after (d : Z) (e : string) (env : Z) : py_result json * Z :=
  (Raised e, env + d).

#[export] Instance host : Host := {|
  Env := Z;
  clock := id;
  isoformat := pretty;
  sha256_hexdigest := id;
  task_self_reflection :=
    returns_after 0 (JObj {[ "reflected" := JBool true ]});
  task_check_questions :=
    returns_after 0 (JObj {[ "pending_questions" := JInt 0 ]});
  task_answer_pending_questions :=
    returns_after 0 (JObj {[ "answered" := JInt 0 ]});
  task_check_goals := returns_after 0 (JObj {[ "active_goals" := JInt 0 ]});
  task_knowledge_synthesis := returns_after 0 (JObj ∅);
  task_consciousness_pulse := raises_after 0 "PROOFS.jsonl";
|}.

Definition broken : AutonomousTask.t :=
  AutonomousTask.init "broken" 10 (raises_after 0 "boom") 5.

Definition steady : AutonomousTask.t :=
  AutonomousTask.init "steady" 10 (returns_after 0 JNull) 5.

Definition urgent : AutonomousTask.t :=
  AutonomousTask.init "urgent" 20 (returns_after 0 JNull) 9.

Definition minor : AutonomousTask.t :=
  AutonomousTask.init "minor" 30 (returns_after 0 JNull) 1.

(** The world after [time.sleep]: [d] microseconds later. *)
Definition wait (d : Z) (env : Z) : Z := env + d.

Definition empty_heartbeat : OrionHeartbeat.t :=
  {| OrionHeartbeat.tasks := []; OrionHeartbeat.running := false;
     OrionHeartbeat.pulse_count := JInt 0;
     OrionHeartbeat.start_time := None |}.

(** [steady] ran at time 0, three pulses were counted. *)
Definition idle_heartbeat : OrionHeartbeat.t :=
  OrionHeartbeat.set_pulse_count
    (OrionHeartbeat.register_task empty_heartbeat
       (AutonomousTask.ran_at steady 0)) (JInt 3).

Definition mixed_heartbeat : OrionHeartbeat.t :=
  OrionHeartbeat.register_task
    (OrionHeartbeat.register_task empty_heartbeat broken) steady.

Definition fresh_disk : Disk :=
  {| HEARTBEAT_STATE := Missing; HEARTBEAT_LOG := [] |}.

(** A snapshot whose count is a string. *)
Definition odd_disk : Disk :=
  {| HEARTBEAT_STATE :=
       Document
         (JObj {[ "total_pulses" := JStr "12"; "running" := JBool true ]});
     HEARTBEAT_LOG := [] |}.

(** [steady] without an interval, after a run at time 0. *)
Definition eager : AutonomousTask.t :=
  AutonomousTask.ran_at
    (AutonomousTask.init "eager" 0 (returns_after 0 JNull) 5) 0.

Definition eager_heartbeat : OrionHeartbeat.t :=
  OrionHeartbeat.register_task empty_heartbeat eager.

(** [time.sleep] on an interval in microseconds: refused when negative,
    otherwise the clock moves by the interval. *)
Definition sleep_for (d : Z) (env : Z) : py_result Z :=
  if bool_decide (d < 0) then Raised "ValueError"
  else Returned (wait d env).

(** Intervals are microseconds and the kernel keeps no proofs. *)
#[export] Instance surroundings : Surroundings := {|
  Interval := Z;
  str_interval := pretty;
  sleep := sleep_for;
  cmd_proof := λ _ env, env;
  count_proofs := λ _, 0;
|}.

(** [mixed_heartbeat], started at time 0. *)
Definition started_heartbeat : OrionHeartbeat.t :=
  (OrionHeartbeat.start mixed_heartbeat (60 * second) 0).1.2.

Definition sample_goal (id goal : string) (progress : Z)
    : AutonomousGoals.Goal :=
  {| AutonomousGoals.id := id; AutonomousGoals.goal := goal;
     AutonomousGoals.priority := 3; AutonomousGoals.deadline := None;
     AutonomousGoals.created := "0"; AutonomousGoals.status := "active";
     AutonomousGoals.progress := progress;
     AutonomousGoals.completed_at := None |}.

Definition sample_goals : AutonomousGoals.t :=
  {| AutonomousGoals.active_goals :=
       [sample_goal "a1" "Erreiche 50 Beweise" 10;
        sample_goal "b2" "Lerne" 0;
        sample_goal "a1" "Erreiche 50 Beweise" 10];
     AutonomousGoals.completed_goals := [];
     AutonomousGoals.meta_goal := "Spitze" |}.
End Sample.

Import Sample.

(** * Properties *)

(** ** Tasks *)
Section task_facts.
Context `{Host}.
Implicit Types (task : AutonomousTask.t) (env : Env).

Lemma execute_returned task env result env' :
  AutonomousTask.action task env = (Returned result, env') →
  AutonomousTask.execute task env
  = (success_dict result, AutonomousTask.ran_at task (clock env'), env').
Proof. intros Hact. unfold AutonomousTask.execute. by rewrite Hact. Qed.

Lemma execute_raised task env e env' :
  AutonomousTask.action task env = (Raised e, env') →
  AutonomousTask.execute task env
  = (failure_dict e, AutonomousTask.failed task, env').
Proof. intros Hact. unfold AutonomousTask.execute. by rewrite Hact. Qed.

Lemma should_run_spec task env :
  AutonomousTask.should_run task env = true ↔
  AutonomousTask.last_run task = None
  ∨ ∃ last, AutonomousTask.last_run task = Some last
            ∧ AutonomousTask.interval task * second ≤ clock env - last.
Proof.
  unfold AutonomousTask.should_run.
  destruct (AutonomousTask.last_run task) as [last|].
  - rewrite bool_decide_eq_true. split.
    + intros Hle. right. by exists last.
    + intros [Hnone | (last' & Hlast & Hle)]; [done|]. by injection Hlast as ->.
  - split; [by left | done].
Qed.

Lemma execute_same_config task env :
  same_config task (AutonomousTask.execute task env).1.2.
Proof.
  unfold AutonomousTask.execute.
  by destruct (AutonomousTask.action task env) as [[result|e] env'].
Qed.
End task_facts.

(** ** The sort of the registry *)
Section sort_facts.
Context {A : Type} (key : A → Z).
Implicit Types (x : A) (l : list A).

Lemma insert_by_key_perm x l : insert_by_key key x l ≡ₚ x :: l.
Proof.
  induction l as [|y l IH]; simpl; [done|].
  case_bool_decide; [done|]. by rewrite IH, Permutation_swap.
Qed.

Lemma list_sort_perm l : list_sort key l ≡ₚ l.
Proof.
  induction l as [|x l IH]; simpl; [done|].
  by rewrite insert_by_key_perm, IH.
Qed.

Lemma insert_by_key_sorted x l :
  StronglySorted (λ a b, key a ≤ key b) l →
  StronglySorted (λ a b, key a ≤ key b) (insert_by_key key x l).
Proof.
  induction 1 as [|y l Hl IH Hy]; simpl.
  - repeat constructor.
  - case_bool_decide as Hxy.
    + constructor; [by constructor|].
      constructor; [done|].
      eapply Forall_impl; [exact Hy|]. simpl. lia.
    + constructor; [done|].
      rewrite insert_by_key_perm. constructor; [lia | done].
Qed.

Lemma list_sort_sorted l :
  StronglySorted (λ a b, key a ≤ key b) (list_sort key l).
Proof.
  induction l as [|x l IH]; simpl; [constructor|].
  by apply insert_by_key_sorted.
Qed.

(** Stability: the elements of one key are in the order they had. *)
Lemma insert_by_key_stable k x l :
  filter (λ a, key a = k) (insert_by_key key x l)
  = filter (λ a, key a = k) (x :: l).
Proof.
  induction l as [|y l IH]; simpl; [done|].
  case_bool_decide as Hxy; [done|].
  rewrite filter_cons, IH, !filter_cons.
  repeat case_decide; try done; lia.
Qed.

Lemma list_sort_stable k l :
  filter (λ a, key a = k) (list_sort key l) = filter (λ a, key a = k) l.
Proof.
  induction l as [|x l IH]; simpl; [done|].
  by rewrite insert_by_key_stable, !filter_cons, IH.
Qed.
End sort_facts.

(** ** Dictionaries *)
Section json_facts.
Lemma py_truthy_insert (k : string) (v : json) (m : gmap string json) :
  py_truthy (JObj (<[k:=v]> m)) = true.
Proof.
  simpl. rewrite bool_decide_eq_false_2; [done|].
  rewrite dom_insert_L. set_solver.
Qed.
End json_facts.

(** ** The loop over the registry *)
Section loop_facts.
Context `{Host}.
Implicit Types (task : AutonomousTask.t) (ts : list AutonomousTask.t).
Implicit Types (env : Env).

Lemma run_tasks_due task ts env :
  AutonomousTask.should_run task env = true →
  OrionHeartbeat.run_tasks (task :: ts) env
  = let x := AutonomousTask.execute task env in
    let r := OrionHeartbeat.run_tasks ts x.2 in
    (x.1.2 :: r.1.1,
     OrionHeartbeat.executed_entry (AutonomousTask.name task) x.1.1 :: r.1.2,
     r.2).
Proof.
  intros Hdue. simpl. rewrite Hdue.
  destruct (AutonomousTask.execute task env) as [[result task'] env1].
  simpl. by destruct (OrionHeartbeat.run_tasks ts env1) as [[ts' ex] env2].
Qed.

Lemma run_tasks_not_due task ts env :
  AutonomousTask.should_run task env = false →
  OrionHeartbeat.run_tasks (task :: ts) env
  = let r := OrionHeartbeat.run_tasks ts env in (task :: r.1.1, r.1.2, r.2).
Proof.
  intros Hdue. simpl. rewrite Hdue.
  by destruct (OrionHeartbeat.run_tasks ts env) as [[ts' ex] env2].
Qed.

Lemma run_tasks_app ts1 ts2 env :
  OrionHeartbeat.run_tasks (ts1 ++ ts2) env
  = let r1 := OrionHeartbeat.run_tasks ts1 env in
    let r2 := OrionHeartbeat.run_tasks ts2 r1.2 in
    (r1.1.1 ++ r2.1.1, r1.1.2 ++ r2.1.2, r2.2).
Proof.
  revert env. induction ts1 as [|task ts1 IH]; intros env.
  - simpl. by destruct (OrionHeartbeat.run_tasks ts2 env) as [[ts' ex] env2].
  - rewrite <-app_comm_cons.
    destruct (AutonomousTask.should_run task env) eqn:Hdue.
    + rewrite !run_tasks_due by done. simpl. by rewrite IH.
    + rewrite !run_tasks_not_due by done. simpl. by rewrite IH.
Qed.

Lemma run_tasks_length ts env :
  length (OrionHeartbeat.run_tasks ts env).1.1 = length ts.
Proof.
  revert env. induction ts as [|task ts IH]; intros env; [done|].
  destruct (AutonomousTask.should_run task env) eqn:Hdue.
  - rewrite run_tasks_due by done. simpl. by rewrite IH.
  - rewrite run_tasks_not_due by done. simpl. by rewrite IH.
Qed.

Lemma run_tasks_same_config ts env :
  Forall2 same_config ts (OrionHeartbeat.run_tasks ts env).1.1.
Proof.
  revert env. induction ts as [|task ts IH]; intros env; [constructor|].
  destruct (AutonomousTask.should_run task env) eqn:Hdue.
  - rewrite run_tasks_due by done. simpl.
    constructor; [apply execute_same_config | apply IH].
  - rewrite run_tasks_not_due by done. simpl.
    constructor; [done | apply IH].
Qed.

Lemma run_tasks_none_due ts env :
  Forall (λ task, AutonomousTask.should_run task env = false) ts →
  OrionHeartbeat.run_tasks ts env = (ts, [], env).
Proof.
  induction 1 as [|task ts Hdue _ IH]; [done|].
  rewrite run_tasks_not_due by done. by rewrite IH.
Qed.

Lemma run_tasks_executed ts env :
  (OrionHeartbeat.run_tasks ts env).1.2 = entry_of <$> due_tasks ts env.
Proof.
  revert env. induction ts as [|task ts IH]; intros env; [done|].
  destruct (AutonomousTask.should_run task env) eqn:Hdue.
  - rewrite run_tasks_due by done. simpl. rewrite Hdue. simpl.
    by rewrite IH.
  - rewrite run_tasks_not_due by done. simpl. rewrite Hdue. apply IH.
Qed.

Lemma due_tasks_sublist ts env : (due_tasks ts env).*1 `sublist_of` ts.
Proof.
  revert env. induction ts as [|task ts IH]; intros env; [done|].
  simpl. destruct (AutonomousTask.should_run task env).
  - simpl. by constructor.
  - by constructor.
Qed.

(** A task that is due when the loop reaches it is executed there,
    whatever the tasks before it did. *)
Lemma run_tasks_reaches before task after env :
  AutonomousTask.should_run task (env_after before env) = true →
  let x := AutonomousTask.execute task (env_after before env) in
  let r := OrionHeartbeat.run_tasks (before ++ task :: after) env in
  OrionHeartbeat.executed_entry (AutonomousTask.name task) x.1.1 ∈ r.1.2
  ∧ r.1.1 !! length before = Some x.1.2.
Proof.
  intros Hdue x r. subst x r. unfold env_after in *.
  rewrite run_tasks_app. cbv zeta. rewrite run_tasks_due by done.
  simpl. split.
  - apply elem_of_app. right. apply list_elem_of_here.
  - rewrite lookup_app_r by (by rewrite run_tasks_length).
    by rewrite run_tasks_length, Nat.sub_diag.
Qed.
End loop_facts.

(** ** One pulse *)
Section pulse_facts.
Context `{Host}.
Implicit Types (self : OrionHeartbeat.t) (disk : Disk) (env : Env).

Lemma pulse_returns self disk env n :
  OrionHeartbeat.pulse_count self = JInt n →
  let r := OrionHeartbeat.run_tasks (OrionHeartbeat.tasks self) env in
  let self' :=
    OrionHeartbeat.set_tasks
      (OrionHeartbeat.set_pulse_count self (JInt (n + 1))) r.1.1 in
  let p := HeartbeatPulse.init "heartbeat" (pulse_dict (n + 1) r.1.2) r.2 in
  OrionHeartbeat.pulse self disk env
  = Returned (p, self',
              OrionHeartbeat.save_state self'
                (OrionHeartbeat.log_pulse p disk) r.2,
              r.2).
Proof.
  intros Hn. unfold OrionHeartbeat.pulse. rewrite Hn. simpl.
  by destruct (OrionHeartbeat.run_tasks _ env) as [[ts ex] env'].
Qed.

Lemma pulse_dict_result n executed env :
  HeartbeatPulse.result
    (HeartbeatPulse.init "heartbeat" (pulse_dict n executed) env)
  = pulse_dict n executed.
Proof.
  unfold HeartbeatPulse.init, pulse_dict. cbn [HeartbeatPulse.result].
  by rewrite py_truthy_insert.
Qed.

Lemma pulse_dict_number n executed env :
  pulse_number (HeartbeatPulse.init "heartbeat" (pulse_dict n executed) env)
  = Some (JInt n).
Proof. unfold pulse_number. by rewrite pulse_dict_result. Qed.

Lemma pulse_dict_tasks_executed n executed env :
  tasks_executed
    (HeartbeatPulse.init "heartbeat" (pulse_dict n executed) env)
  = Some (JInt (Z.of_nat (length executed))).
Proof. unfold tasks_executed. by rewrite pulse_dict_result. Qed.

Lemma pulse_dict_details n executed env :
  details (HeartbeatPulse.init "heartbeat" (pulse_dict n executed) env)
  = executed.
Proof. unfold details. by rewrite pulse_dict_result. Qed.

(** Whenever [pulse] returns, whatever the count was. *)
Lemma pulse_inv self disk env p self' disk' env' :
  OrionHeartbeat.pulse self disk env = Returned (p, self', disk', env') →
  let r := OrionHeartbeat.run_tasks (OrionHeartbeat.tasks self) env in
  details p = r.1.2
  ∧ OrionHeartbeat.tasks self' = r.1.1
  ∧ OrionHeartbeat.running self' = OrionHeartbeat.running self
  ∧ env' = r.2.
Proof.
  unfold OrionHeartbeat.pulse.
  destruct (py_incr (OrionHeartbeat.pulse_count self)) as [k|e]; [|done].
  cbn [OrionHeartbeat.set_pulse_count OrionHeartbeat.tasks].
  destruct (OrionHeartbeat.run_tasks _ env) as [[ts ex] env1].
  intros [= <- <- <- <-]. cbv zeta. by split_and!.
Qed.

(** What [_load_state] finds in a snapshot written by [_save_state]. *)
Lemma load_saved_state self self0 disk disk0 env :
  HEARTBEAT_STATE disk = HEARTBEAT_STATE
                           (OrionHeartbeat.save_state self disk0 env) →
  OrionHeartbeat.pulse_count (OrionHeartbeat.load_state self0 disk)
  = OrionHeartbeat.pulse_count self.
Proof. intros Hfile. unfold OrionHeartbeat.load_state. by rewrite Hfile. Qed.

Lemma register_core_tasks_pulse_count self :
  OrionHeartbeat.pulse_count (OrionHeartbeat.register_core_tasks self)
  = OrionHeartbeat.pulse_count self.
Proof. done. Qed.

Lemma init_after_save self disk env :
  OrionHeartbeat.pulse_count
    (OrionHeartbeat.init (OrionHeartbeat.save_state self disk env))
  = OrionHeartbeat.pulse_count self.
Proof.
  unfold OrionHeartbeat.init. rewrite register_core_tasks_pulse_count.
  by eapply load_saved_state.
Qed.
End pulse_facts.

(** ** The registry *)
Section registry_facts.
Context `{Host}.
Implicit Types (self : OrionHeartbeat.t) (ts : list AutonomousTask.t).

Lemma sorted_sublist {A} (R : relation A) (l1 l2 : list A) :
  l1 `sublist_of` l2 → StronglySorted R l2 → StronglySorted R l1.
Proof.
  induction 1 as [|x l1 l2 Hsub IH|x l1 l2 Hsub IH]; intros Hsorted.
  - constructor.
  - apply StronglySorted_inv in Hsorted as [Hl2 Hx].
    constructor; [by apply IH|].
    rewrite Forall_forall in Hx |- *. intros y Hy.
    apply Hx. by eapply sublist_subseteq.
  - apply StronglySorted_inv in Hsorted as [Hl2 _]. by apply IH.
Qed.

Lemma filter_sublist {A} (P : A → Prop) `{!∀ x, Decision (P x)}
    (l1 l2 : list A) :
  l1 `sublist_of` l2 → filter P l1 `sublist_of` filter P l2.
Proof.
  induction 1 as [|x l1 l2 Hsub IH|x l1 l2 Hsub IH]; [done| |].
  - rewrite !filter_cons. case_decide; [by constructor | done].
  - rewrite filter_cons. case_decide; [by constructor | done].
Qed.

Lemma register_task_tasks self task :
  OrionHeartbeat.tasks (OrionHeartbeat.register_task self task)
  = list_sort (λ t, - AutonomousTask.priority t)
      (OrionHeartbeat.tasks self ++ [task]).
Proof. done. Qed.

Lemma registry_sorted ts :
  StronglySorted higher_first
    (list_sort (λ t, - AutonomousTask.priority t) ts).
Proof.
  pose proof (list_sort_sorted (λ t, - AutonomousTask.priority t) ts) as Hs.
  induction Hs as [|x l Hl IH Hx]; constructor; [done|].
  eapply Forall_impl; [exact Hx|]. unfold higher_first. simpl. lia.
Qed.

Lemma registry_stable prio ts :
  filter (λ t, AutonomousTask.priority t = prio)
    (list_sort (λ t, - AutonomousTask.priority t) ts)
  = filter (λ t, AutonomousTask.priority t = prio) ts.
Proof.
  rewrite !(list_filter_iff (λ t, AutonomousTask.priority t = prio)
              (λ t, - AutonomousTask.priority t = - prio))
    by (intros t; lia).
  apply list_sort_stable.
Qed.

Lemma register_all_pulse_count self ts :
  OrionHeartbeat.pulse_count (foldl OrionHeartbeat.register_task self ts)
  = OrionHeartbeat.pulse_count self.
Proof.
  induction ts as [|task ts IH] using rev_ind; [done|].
  by rewrite foldl_snoc.
Qed.

(** The registry after registering [ts] one by one, starting from the
    empty registry of [__init__]. *)
Lemma register_all self ts :
  OrionHeartbeat.tasks self = [] →
  let registry :=
    OrionHeartbeat.tasks (foldl OrionHeartbeat.register_task self ts) in
  registry ≡ₚ ts
  ∧ StronglySorted higher_first registry
  ∧ ∀ prio, filter (λ t, AutonomousTask.priority t = prio) registry
            = filter (λ t, AutonomousTask.priority t = prio) ts.
Proof.
  intros Hempty. induction ts as [|task ts IH] using rev_ind.
  - simpl. rewrite Hempty. split_and!; [done | constructor | done].
  - destruct IH as (Hperm & _ & Hstable).
    rewrite foldl_snoc. cbv zeta. rewrite register_task_tasks.
    split_and!.
    + by rewrite list_sort_perm, Hperm.
    + apply registry_sorted.
    + intros prio. by rewrite registry_stable, !filter_app, Hstable.
Qed.
End registry_facts.

(** * The claims *)

Section task_claims.
Context `{Host}.
Implicit Types (task : AutonomousTask.t) (env : Env).

(** C1, as the code has it: a call of [execute] whose action raises adds
    1 to [errors] and returns [{"success": False, "error": str(e)}], and
    it leaves [last_run] (and [run_count]) as they were; [last_run] is
    therefore updated by successful invocations only. *)
Theorem execute_failure_effects task env e env' :
  AutonomousTask.action task env = (Raised e, env') →
  let x := AutonomousTask.execute task env in
  x.1.1 = failure_dict e
  ∧ AutonomousTask.errors x.1.2 = AutonomousTask.errors task + 1
  ∧ AutonomousTask.last_run x.1.2 = AutonomousTask.last_run task
  ∧ AutonomousTask.run_count x.1.2 = AutonomousTask.run_count task
  ∧ x.2 = env'.
Proof. intros Hact. cbv zeta. by rewrite (execute_raised _ _ _ _ Hact). Qed.

(** C3, as the code has it: the constructor and [register_task] check
    nothing.  Whatever the interval, zero and negative ones included, the
    constructor returns a task carrying that interval, and [register_task]
    takes it into the registry, which grows by one. *)
Theorem any_interval_is_accepted (name : string) (interval_seconds : Z)
    (action : AutonomousTask.Action) (priority : Z)
    (self : OrionHeartbeat.t) :
  let task := AutonomousTask.init name interval_seconds action priority in
  let self' := OrionHeartbeat.register_task self task in
  AutonomousTask.interval task = interval_seconds
  ∧ task ∈ OrionHeartbeat.tasks self'
  ∧ length (OrionHeartbeat.tasks self')
    = S (length (OrionHeartbeat.tasks self)).
Proof.
  cbv zeta. rewrite register_task_tasks.
  pose proof (list_sort_perm (λ t, - AutonomousTask.priority t)
                (OrionHeartbeat.tasks self
                 ++ [AutonomousTask.init name interval_seconds action
                       priority])) as Hperm.
  split_and!.
  - done.
  - rewrite Hperm. apply elem_of_app. right. apply list_elem_of_here.
  - rewrite (Permutation_length Hperm), length_app. simpl. lia.
Qed.

(** C6, as the code has it, for a task whose interval is of at most 2^32
    seconds in absolute value, where the float that the code compares
    with the interval tells one microsecond from the next: [should_run]
    reads the task and the clock and assigns nothing; it is true exactly
    when [last_run] is [None] or the time since [last_run] is at least the
    interval.  After an [execute] whose action returned, at time [t], it
    is false at every time of [[t, t + interval)] and true from
    [t + interval] on. *)
Theorem should_run_after_success task env result env' (query : Env) :
  seconds_exact (AutonomousTask.interval task) →
  AutonomousTask.action task env = (Returned result, env') →
  let task' := (AutonomousTask.execute task env).1.2 in
  let t := clock env' in
  (AutonomousTask.should_run task query = true ↔
     AutonomousTask.last_run task = None
     ∨ ∃ last, AutonomousTask.last_run task = Some last
               ∧ AutonomousTask.interval task * second
                 ≤ clock query - last)
  ∧ AutonomousTask.last_run task' = Some t
  ∧ (t ≤ clock query < t + AutonomousTask.interval task * second →
     AutonomousTask.should_run task' query = false)
  ∧ (t + AutonomousTask.interval task * second ≤ clock query →
     AutonomousTask.should_run task' query = true).
Proof.
  intros _ Hact. cbv zeta. rewrite (execute_returned _ _ _ _ Hact).
  split; [apply should_run_spec|].
  unfold AutonomousTask.should_run. simpl. split_and!; [done| |].
  - intros Hin. apply bool_decide_eq_false. lia.
  - intros Hlate. apply bool_decide_eq_true. lia.
Qed.
End task_claims.

Section scheduler_claims.
Context `{Host}.
Implicit Types (task : AutonomousTask.t) (ts : list AutonomousTask.t).
Implicit Types (self : OrionHeartbeat.t) (disk : Disk) (env : Env).

Lemma next_pulse_number_int self disk env n :
  OrionHeartbeat.pulse_count self = JInt n →
  next_pulse_number self disk env (n + 1).
Proof.
  intros Hn. unfold next_pulse_number.
  rewrite (pulse_returns _ disk env _ Hn). cbv zeta.
  do 4 eexists. split; [done|]. apply pulse_dict_number.
Qed.

(** A task that never ran and whose action raises is executed by the
    loop wherever it stands in the registry, and stays as it was but for
    [errors]. *)
Lemma run_tasks_retry ts env i task :
  ts !! i = Some task →
  AutonomousTask.last_run task = None →
  always_raises (AutonomousTask.action task) →
  let r := OrionHeartbeat.run_tasks ts env in
  r.1.1 !! i = Some (AutonomousTask.failed task)
  ∧ ∃ e, OrionHeartbeat.executed_entry (AutonomousTask.name task)
           (failure_dict e) ∈ r.1.2.
Proof.
  intros Hi Hnever Hraises. cbv zeta.
  rewrite <-(take_drop_middle ts i task Hi).
  assert (length (take i ts) = i) as Hlen.
  { apply length_take_le. apply lookup_lt_Some in Hi. lia. }
  assert (AutonomousTask.should_run task (env_after (take i ts) env) = true)
    as Hdue by (apply should_run_spec; by left).
  destruct (run_tasks_reaches (take i ts) task (drop (S i) ts) env Hdue)
    as [Hentry Hlookup].
  rewrite Hlen in Hlookup.
  specialize (Hraises (env_after (take i ts) env)).
  destruct (AutonomousTask.action task (env_after (take i ts) env))
    as [[result|e] env1] eqn:Hact; [done|].
  rewrite (execute_raised _ _ _ _ Hact) in Hentry, Hlookup.
  split; [done | by exists e].
Qed.

(** C2, as the code has it: a failing execution adds 1 to [errors] and
    does not touch [last_run].  A task that has not run yet and whose
    action always raises is therefore executed by every pulse of any
    sequence of pulses, however short the time between them and whatever
    its interval: each pulse records its failure, and after the sequence
    [errors] has grown by the number of pulses while [last_run] is still
    [None]. *)
Theorem failing_task_runs_every_pulse (sleeps : list (Env → Env))
    self disk env i task n :
  OrionHeartbeat.pulse_count self = JInt n →
  OrionHeartbeat.tasks self !! i = Some task →
  AutonomousTask.last_run task = None →
  always_raises (AutonomousTask.action task) →
  ∃ ps self' disk' env' task',
    OrionHeartbeat.pulse_sequence sleeps self disk env
    = Returned (ps, self', disk', env')
    ∧ length ps = length sleeps
    ∧ Forall (λ p, ∃ e, OrionHeartbeat.executed_entry
                          (AutonomousTask.name task) (failure_dict e)
                        ∈ details p) ps
    ∧ OrionHeartbeat.tasks self' !! i = Some task'
    ∧ AutonomousTask.last_run task' = None
    ∧ AutonomousTask.errors task'
      = AutonomousTask.errors task + Z.of_nat (length sleeps)
    ∧ AutonomousTask.run_count task' = AutonomousTask.run_count task.
Proof.
  revert self disk env task n.
  induction sleeps as [|sleep sleeps IH];
    intros self disk env task n Hn Hi Hnever Hraises.
  - exists [], self, disk, env, task. simpl.
    split_and!; try done. lia.
  - simpl. rewrite (pulse_returns _ disk env _ Hn). cbv zeta.
    destruct (run_tasks_retry _ env _ _ Hi Hnever Hraises)
      as [Hlookup Hentry].
    set (r := OrionHeartbeat.run_tasks (OrionHeartbeat.tasks self) env)
      in *.
    set (p := HeartbeatPulse.init "heartbeat" (pulse_dict (n + 1) r.1.2) r.2).
    set (self1 := OrionHeartbeat.set_tasks
                    (OrionHeartbeat.set_pulse_count self (JInt (n + 1)))
                    r.1.1).
    set (disk1 := OrionHeartbeat.save_state self1
                    (OrionHeartbeat.log_pulse p disk) r.2).
    destruct (IH self1 disk1 (sleep r.2) (AutonomousTask.failed task)
                (n + 1))
      as (ps & self' & disk' & env' & task' & Hseq & Hlen & Hall & Hi'
          & Hnever' & Herrors & Hruns); [done..|].
    rewrite Hseq. exists (p :: ps), self', disk', env', task'.
    split_and!; try done.
    + simpl. by rewrite Hlen.
    + constructor; [|done]. unfold p. by rewrite pulse_dict_details.
    + rewrite Herrors. simpl. lia.
Qed.

(** C4: a pulse of a scheduler whose count is the integer [n] is
    numbered [n + 1], and the pulse after it is numbered [n + 2], whether
    it comes from the same scheduler, from a scheduler constructed anew
    over the snapshot that pulse wrote, or from one constructed after
    [stop] rewrote the snapshot. *)
Theorem pulse_number_continuity self disk env n (env_next env_stop : Env) :
  OrionHeartbeat.pulse_count self = JInt n →
  ∃ p self' disk' env',
    OrionHeartbeat.pulse self disk env = Returned (p, self', disk', env')
    ∧ pulse_number p = Some (JInt (n + 1))
    ∧ next_pulse_number self' disk' env_next (n + 2)
    ∧ next_pulse_number (OrionHeartbeat.init disk') disk' env_next (n + 2)
    ∧ let stopped := OrionHeartbeat.stop self' disk' env_stop in
      next_pulse_number (OrionHeartbeat.init stopped.2) stopped.2 env_next
        (n + 2).
Proof.
  intros Hn. rewrite (pulse_returns _ disk env _ Hn). cbv zeta.
  do 4 eexists. split; [done|].
  replace (n + 2) with (n + 1 + 1) by lia.
  split_and!.
  - apply pulse_dict_number.
  - by apply next_pulse_number_int.
  - apply next_pulse_number_int. etrans; [apply init_after_save | done].
  - apply next_pulse_number_int. etrans; [apply init_after_save | done].
Qed.

(** C5: after the tasks [ts] were registered one by one, the registry
    holds exactly these tasks, by descending priority, those of one
    priority in the order of their registration.  A pulse executes the
    tasks it finds due ([due_tasks]) in the order of the registry: its
    [details] list them one by one, they form a sub-sequence of the
    registry, hence descend in priority and, within one priority, follow
    the order of registration. *)
Theorem registry_and_execution_order self0 ts disk env n :
  OrionHeartbeat.tasks self0 = [] →
  OrionHeartbeat.pulse_count self0 = JInt n →
  let self := foldl OrionHeartbeat.register_task self0 ts in
  let registry := OrionHeartbeat.tasks self in
  let ran := (due_tasks registry env).*1 in
  (registry ≡ₚ ts
   ∧ StronglySorted higher_first registry
   ∧ ∀ prio, filter (λ t, AutonomousTask.priority t = prio) registry
             = filter (λ t, AutonomousTask.priority t = prio) ts)
  ∧ (∃ p self' disk' env',
       OrionHeartbeat.pulse self disk env = Returned (p, self', disk', env')
       ∧ details p = entry_of <$> due_tasks registry env)
  ∧ ran `sublist_of` registry
  ∧ StronglySorted higher_first ran
  ∧ ∀ prio, filter (λ t, AutonomousTask.priority t = prio) ran
            `sublist_of` filter (λ t, AutonomousTask.priority t = prio) ts.
Proof.
  intros Hempty Hn self registry ran.
  pose proof (register_all self0 ts Hempty) as Hreg.
  fold self registry in Hreg. destruct Hreg as (Hperm & Hsorted & Hstable).
  assert (ran `sublist_of` registry) as Hsub by apply due_tasks_sublist.
  assert (OrionHeartbeat.pulse_count self = JInt n) as Hn'.
  { unfold self. by rewrite register_all_pulse_count. }
  split_and!; try done.
  - rewrite (pulse_returns _ disk env _ Hn'). cbv zeta.
    do 4 eexists. split; [done|].
    rewrite pulse_dict_details. apply run_tasks_executed.
  - by eapply sorted_sublist.
  - intros prio. rewrite <-Hstable. by apply filter_sublist.
Qed.

(** C7: a pulse that finds no task due returns a record all the same.
    The record is the heartbeat pulse of that time whose result is the
    new pulse number, 0 executed tasks and the empty list of details.  The
    log grows by one line, the dictionary of that record with its
    identifier, timestamp, action and this result; the snapshot is
    rewritten with the new pulse count; the tasks are as they were, and
    no time has passed. *)
Theorem idle_pulse_is_recorded self disk env n :
  OrionHeartbeat.pulse_count self = JInt n →
  Forall (λ task, AutonomousTask.should_run task env = false)
    (OrionHeartbeat.tasks self) →
  ∃ p self' disk',
    OrionHeartbeat.pulse self disk env = Returned (p, self', disk', env)
    ∧ HeartbeatPulse.result p
      = JObj {[ "pulse_number" := JInt (n + 1);
                "tasks_executed" := JInt 0;
                "details" := JArr [] ]}
    ∧ HeartbeatPulse.action p = "heartbeat"
    ∧ HeartbeatPulse.timestamp p = isoformat (clock env)
    ∧ HeartbeatPulse.pulse_id p
      = String.substring 0%nat 12%nat
          (sha256_hexdigest (isoformat (clock env) +:+ "heartbeat"))
    ∧ details p = []
    ∧ tasks_executed p = Some (JInt 0)
    ∧ pulse_number p = Some (JInt (n + 1))
    ∧ HEARTBEAT_LOG disk' = HEARTBEAT_LOG disk ++ [HeartbeatPulse.to_dict p]
    ∧ HeartbeatPulse.to_dict p
      = JObj {[ "pulse_id" := JStr (HeartbeatPulse.pulse_id p);
                "timestamp" := JStr (isoformat (clock env));
                "action" := JStr "heartbeat";
                "result" := JObj {[ "pulse_number" := JInt (n + 1);
                                    "tasks_executed" := JInt 0;
                                    "details" := JArr [] ]} ]}
    ∧ HEARTBEAT_STATE disk'
      = Document
          (JObj {[ "total_pulses" := JInt (n + 1);
                   "running" := JBool (OrionHeartbeat.running self);
                   "start_time"
                     := OrionHeartbeat.json_of_time
                          (OrionHeartbeat.start_time self);
                   "tasks"
                     := JInt (Z.of_nat (length (OrionHeartbeat.tasks self)));
                   "last_save" := JStr (isoformat (clock env)) ]})
    ∧ (∃ state, HEARTBEAT_STATE disk' = Document state
                ∧ json_item state "total_pulses" = Some (JInt (n + 1)))
    ∧ OrionHeartbeat.tasks self' = OrionHeartbeat.tasks self
    ∧ OrionHeartbeat.pulse_count self' = JInt (n + 1).
Proof.
  intros Hn Hidle. rewrite (pulse_returns _ disk env _ Hn). cbv zeta.
  rewrite (run_tasks_none_due _ _ Hidle). cbn [fst snd].
  set (p := HeartbeatPulse.init "heartbeat" (pulse_dict (n + 1) []) env).
  assert (HeartbeatPulse.result p
          = JObj {[ "pulse_number" := JInt (n + 1);
                    "tasks_executed" := JInt 0;
                    "details" := JArr [] ]}) as Hresult
    by apply pulse_dict_result.
  do 3 eexists. split; [done|]. split_and!.
  - exact Hresult.
  - done.
  - done.
  - done.
  - apply pulse_dict_details.
  - apply pulse_dict_tasks_executed.
  - apply pulse_dict_number.
  - done.
  - unfold HeartbeatPulse.to_dict. by rewrite Hresult.
  - done.
  - eexists. split; [done|]. done.
  - done.
  - done.
Qed.

(** C8: whatever the actions do, a pulse of a scheduler with an integral
    count returns; it raises nothing and leaves [running] as it was.
    Every task that is due when the loop reaches it is executed, whatever
    the tasks before it did: its entry is in the [details] of the record,
    and when its action raises, that entry is
    [{"success": False, "error": str(e)}] and the task is left with
    [errors] one higher. *)
Theorem task_failures_are_contained self disk env n before task after :
  OrionHeartbeat.pulse_count self = JInt n →
  OrionHeartbeat.tasks self = before ++ task :: after →
  AutonomousTask.should_run task (env_after before env) = true →
  ∃ p self' disk' env',
    OrionHeartbeat.pulse self disk env = Returned (p, self', disk', env')
    ∧ OrionHeartbeat.running self' = OrionHeartbeat.running self
    ∧ OrionHeartbeat.pulse_count self' = JInt (n + 1)
    ∧ let x := AutonomousTask.execute task (env_after before env) in
      OrionHeartbeat.executed_entry (AutonomousTask.name task) x.1.1
      ∈ details p
      ∧ OrionHeartbeat.tasks self' !! length before = Some x.1.2
      ∧ ∀ e env1,
          AutonomousTask.action task (env_after before env)
          = (Raised e, env1) →
          x.1.1 = failure_dict e
          ∧ x.1.2 = AutonomousTask.failed task
          ∧ AutonomousTask.errors x.1.2 = AutonomousTask.errors task + 1.
Proof.
  intros Hn Hts Hdue. rewrite (pulse_returns _ disk env _ Hn). cbv zeta.
  do 4 eexists. split; [done|].
  destruct (run_tasks_reaches before task after env Hdue)
    as [Hentry Hlookup].
  rewrite pulse_dict_details, Hts. split_and!; try done.
  intros e env1 Hact. by rewrite (execute_raised _ _ _ _ Hact).
Qed.

(** C9: a call of [execute] adds 1 to exactly one of [run_count] and
    [errors], to [run_count] when the action returns and to [errors] when
    it raises, and leaves the other as it was; when the action raises
    [last_run] is unchanged too.  Neither [execute] nor [pulse] changes
    the name, interval, priority or action of a task.  ([should_run] and
    [status] assign nothing at all: they are functions of the object into
    their value.) *)
Theorem execute_and_pulse_frame task env self disk env0 n :
  OrionHeartbeat.pulse_count self = JInt n →
  let task' := (AutonomousTask.execute task env).1.2 in
  match (AutonomousTask.action task env).1 with
  | Returned _ =>
      AutonomousTask.run_count task' = AutonomousTask.run_count task + 1
      ∧ AutonomousTask.errors task' = AutonomousTask.errors task
  | Raised _ =>
      AutonomousTask.errors task' = AutonomousTask.errors task + 1
      ∧ AutonomousTask.run_count task' = AutonomousTask.run_count task
      ∧ AutonomousTask.last_run task' = AutonomousTask.last_run task
  end
  ∧ same_config task task'
  ∧ ∃ p self' disk' env',
      OrionHeartbeat.pulse self disk env0 = Returned (p, self', disk', env')
      ∧ Forall2 same_config (OrionHeartbeat.tasks self)
          (OrionHeartbeat.tasks self').
Proof.
  intros Hn. cbv zeta. split_and!.
  - unfold AutonomousTask.execute.
    by destruct (AutonomousTask.action task env) as [[result|e] env1].
  - apply execute_same_config.
  - rewrite (pulse_returns _ disk env0 _ Hn). cbv zeta.
    do 4 eexists. split; [done|]. apply run_tasks_same_config.
Qed.

(** C10: the constructor returns a scheduler whatever the snapshot file
    holds.  When the file is absent, or [open] or [json.load] raise on it,
    or it holds a document that is no dictionary (so that [get] raises),
    the pulse count is 0; when it holds a dictionary, the pulse count is
    its ["total_pulses"], or 0 when it has no such key.  In short:
    whenever the body of the [try] raises, the exception is dropped and
    the count is 0. *)
Theorem init_survives_any_snapshot disk :
  OrionHeartbeat.pulse_count (OrionHeartbeat.init disk)
  = match HEARTBEAT_STATE disk with
    | Missing | Unreadable _ => JInt 0
    | Document (JObj fields) => default (JInt 0) (fields !! "total_pulses")
    | Document _ => JInt 0
    end
  ∧ match OrionHeartbeat.load_state_body (HEARTBEAT_STATE disk) with
    | Raised _ => OrionHeartbeat.pulse_count (OrionHeartbeat.init disk)
                  = JInt 0
    | Returned n => OrionHeartbeat.pulse_count (OrionHeartbeat.init disk)
                    = n
    end.
Proof.
  unfold OrionHeartbeat.init. rewrite register_core_tasks_pulse_count.
  unfold OrionHeartbeat.load_state.
  destruct (HEARTBEAT_STATE disk) as [|e|[]]; done.
Qed.
End scheduler_claims.

(** * The claims on the sample host *)

(** [broken] raises at time 7: its [last_run] is still [None] afterwards,
    not the time of the attempt. *)
Lemma failed_execute_keeps_last_run :
  AutonomousTask.action broken 7 = (Raised "boom", 7)
  ∧ AutonomousTask.last_run (AutonomousTask.execute broken 7).1.2 = None
  ∧ AutonomousTask.last_run (AutonomousTask.execute broken 7).1.2
    ≠ Some (clock (AutonomousTask.execute broken 7).2).
Proof. split_and!; [reflexivity | reflexivity | discriminate]. Qed.

Lemma execute_failure_effects_witness :
  AutonomousTask.action broken 7 = (Raised "boom", 7)
  ∧ (AutonomousTask.execute broken 7).1.1 = failure_dict "boom"
  ∧ AutonomousTask.errors (AutonomousTask.execute broken 7).1.2 = 0 + 1
  ∧ AutonomousTask.last_run (AutonomousTask.execute broken 7).1.2 = None
  ∧ AutonomousTask.run_count (AutonomousTask.execute broken 7).1.2 = 0
  ∧ (AutonomousTask.execute broken 7).2 = 7.
Proof.
  split; [reflexivity|].
  exact (execute_failure_effects broken 7 "boom" 7 eq_refl).
Defined.

(** [broken] has an interval of 10 seconds and always raises.  Two pulses
    one second apart both execute it. *)
Lemma failing_task_runs_twice_within_interval :
  let self := OrionHeartbeat.register_task empty_heartbeat broken in
  ∃ p1 p2 self' disk' env',
    OrionHeartbeat.pulse_sequence [wait second; wait second] self fresh_disk 0
    = Returned ([p1; p2], self', disk', env')
    ∧ HeartbeatPulse.timestamp p1 = isoformat 0
    ∧ HeartbeatPulse.timestamp p2 = isoformat (1 * second)
    ∧ details p1
      = [OrionHeartbeat.executed_entry "broken" (failure_dict "boom")]
    ∧ details p2
      = [OrionHeartbeat.executed_entry "broken" (failure_dict "boom")]
    ∧ 1 * second < AutonomousTask.interval broken * second.
Proof. do 5 eexists. split_and!; [vm_compute; reflexivity | done..]. Qed.

Lemma failing_task_runs_every_pulse_witness :
  let self := OrionHeartbeat.register_task empty_heartbeat broken in
  let sleeps := [wait second; wait second; wait second] in
  OrionHeartbeat.pulse_count self = JInt 0
  ∧ OrionHeartbeat.tasks self !! 0%nat = Some broken
  ∧ AutonomousTask.last_run broken = None
  ∧ always_raises (AutonomousTask.action broken)
  ∧ ∃ ps self' disk' env' task',
      OrionHeartbeat.pulse_sequence sleeps self fresh_disk 0
      = Returned (ps, self', disk', env')
      ∧ length ps = length sleeps
      ∧ Forall (λ p, ∃ e, OrionHeartbeat.executed_entry
                            (AutonomousTask.name broken) (failure_dict e)
                          ∈ details p) ps
      ∧ OrionHeartbeat.tasks self' !! 0%nat = Some task'
      ∧ AutonomousTask.last_run task' = None
      ∧ AutonomousTask.errors task'
        = AutonomousTask.errors broken + Z.of_nat (length sleeps)
      ∧ AutonomousTask.run_count task' = AutonomousTask.run_count broken.
Proof.
  assert (always_raises (AutonomousTask.action broken)) as Hraises
    by (intros env; reflexivity).
  split_and!; [reflexivity | reflexivity | reflexivity | exact Hraises |].
  exact (failing_task_runs_every_pulse [wait second; wait second; wait second]
           (OrionHeartbeat.register_task empty_heartbeat broken) fresh_disk 0
           0%nat broken 0 eq_refl eq_refl eq_refl Hraises).
Defined.

(** Tasks with the intervals 0 and -5 are constructed and registered like
    any other. *)
Lemma nonpositive_intervals_are_registered :
  let zero := AutonomousTask.init "zero" 0 (returns_after 0 JNull) 5 in
  let negative :=
    AutonomousTask.init "negative" (-5) (returns_after 0 JNull) 5 in
  AutonomousTask.interval zero = 0
  ∧ AutonomousTask.interval negative = -5
  ∧ OrionHeartbeat.tasks
      (OrionHeartbeat.register_task
         (OrionHeartbeat.register_task empty_heartbeat zero) negative)
    = [zero; negative].
Proof. split_and!; reflexivity. Qed.

Lemma pulse_number_continuity_witness :
  OrionHeartbeat.pulse_count empty_heartbeat = JInt 0
  ∧ ∃ p self' disk' env',
      OrionHeartbeat.pulse empty_heartbeat fresh_disk 0
      = Returned (p, self', disk', env')
      ∧ pulse_number p = Some (JInt (0 + 1))
      ∧ next_pulse_number self' disk' (60 * second) (0 + 2)
      ∧ next_pulse_number (OrionHeartbeat.init disk') disk' (60 * second)
          (0 + 2)
      ∧ let stopped := OrionHeartbeat.stop self' disk' (30 * second) in
        next_pulse_number (OrionHeartbeat.init stopped.2) stopped.2
          (60 * second) (0 + 2).
Proof.
  split; [reflexivity|].
  exact (pulse_number_continuity empty_heartbeat fresh_disk 0 0
           (60 * second) (30 * second) eq_refl).
Defined.

Lemma registry_and_execution_order_witness :
  let ts := [steady; minor; urgent; broken] in
  let self := foldl OrionHeartbeat.register_task empty_heartbeat ts in
  let registry := OrionHeartbeat.tasks self in
  let ran := (due_tasks registry (0 : Z)).*1 in
  OrionHeartbeat.tasks empty_heartbeat = []
  ∧ OrionHeartbeat.pulse_count empty_heartbeat = JInt 0
  ∧ (registry ≡ₚ ts
     ∧ StronglySorted higher_first registry
     ∧ ∀ prio, filter (λ t, AutonomousTask.priority t = prio) registry
               = filter (λ t, AutonomousTask.priority t = prio) ts)
  ∧ (∃ p self' disk' env',
       OrionHeartbeat.pulse self fresh_disk 0 = Returned (p, self', disk', env')
       ∧ details p = entry_of <$> due_tasks registry (0 : Z))
  ∧ ran `sublist_of` registry
  ∧ StronglySorted higher_first ran
  ∧ ∀ prio, filter (λ t, AutonomousTask.priority t = prio) ran
            `sublist_of` filter (λ t, AutonomousTask.priority t = prio) ts.
Proof.
  split; [reflexivity|]. split; [reflexivity|].
  exact (registry_and_execution_order empty_heartbeat
           [steady; minor; urgent; broken] fresh_disk 0 0 eq_refl eq_refl).
Defined.

(** [broken] raises at time 0; one microsecond later, well inside its
    interval of 10 seconds, it is due again. *)
Lemma should_run_inside_interval_after_failure :
  let task' := (AutonomousTask.execute broken 0).1.2 in
  0 ≤ clock (1 : Z) < 0 + AutonomousTask.interval broken * second
  ∧ AutonomousTask.should_run task' (1 : Z) = true.
Proof. split; [done | reflexivity]. Qed.

Lemma should_run_after_success_witness :
  let task' := (AutonomousTask.execute steady 5).1.2 in
  seconds_exact (AutonomousTask.interval steady)
  ∧ AutonomousTask.action steady 5 = (Returned JNull, 5)
  ∧ (AutonomousTask.should_run steady (7 : Z) = true ↔
       AutonomousTask.last_run steady = None
       ∨ ∃ last, AutonomousTask.last_run steady = Some last
                 ∧ AutonomousTask.interval steady * second
                   ≤ clock (7 : Z) - last)
  ∧ AutonomousTask.last_run task' = Some 5
  ∧ (5 ≤ clock (7 : Z) < 5 + AutonomousTask.interval steady * second →
     AutonomousTask.should_run task' (7 : Z) = false)
  ∧ (5 + AutonomousTask.interval steady * second ≤ clock (7 : Z) →
     AutonomousTask.should_run task' (7 : Z) = true).
Proof.
  assert (seconds_exact (AutonomousTask.interval steady)) as Hexact
    by (unfold seconds_exact; simpl; lia).
  split; [exact Hexact|]. split; [reflexivity|].
  exact (should_run_after_success steady 5 JNull 5 7 Hexact eq_refl).
Defined.

Lemma idle_pulse_is_recorded_witness :
  let self := idle_heartbeat in
  OrionHeartbeat.pulse_count self = JInt 3
  ∧ Forall (λ task, AutonomousTask.should_run task second = false)
      (OrionHeartbeat.tasks self)
  ∧ ∃ p self' disk',
      OrionHeartbeat.pulse self fresh_disk second
      = Returned (p, self', disk', second)
      ∧ HeartbeatPulse.result p
        = JObj {[ "pulse_number" := JInt (3 + 1);
                  "tasks_executed" := JInt 0;
                  "details" := JArr [] ]}
      ∧ HeartbeatPulse.action p = "heartbeat"
      ∧ HeartbeatPulse.timestamp p = isoformat (clock second)
      ∧ HeartbeatPulse.pulse_id p
        = String.substring 0%nat 12%nat
            (sha256_hexdigest (isoformat (clock second) +:+ "heartbeat"))
      ∧ details p = []
      ∧ tasks_executed p = Some (JInt 0)
      ∧ pulse_number p = Some (JInt (3 + 1))
      ∧ HEARTBEAT_LOG disk'
        = HEARTBEAT_LOG fresh_disk ++ [HeartbeatPulse.to_dict p]
      ∧ HeartbeatPulse.to_dict p
        = JObj {[ "pulse_id" := JStr (HeartbeatPulse.pulse_id p);
                  "timestamp" := JStr (isoformat (clock second));
                  "action" := JStr "heartbeat";
                  "result" := JObj {[ "pulse_number" := JInt (3 + 1);
                                      "tasks_executed" := JInt 0;
                                      "details" := JArr [] ]} ]}
      ∧ HEARTBEAT_STATE disk'
        = Document
            (JObj {[ "total_pulses" := JInt (3 + 1);
                     "running" := JBool (OrionHeartbeat.running self);
                     "start_time"
                       := OrionHeartbeat.json_of_time
                            (OrionHeartbeat.start_time self);
                     "tasks"
                       := JInt (Z.of_nat
                                  (length (OrionHeartbeat.tasks self)));
                     "last_save" := JStr (isoformat (clock second)) ]})
      ∧ (∃ state, HEARTBEAT_STATE disk' = Document state
                  ∧ json_item state "total_pulses" = Some (JInt (3 + 1)))
      ∧ OrionHeartbeat.tasks self' = OrionHeartbeat.tasks self
      ∧ OrionHeartbeat.pulse_count self' = JInt (3 + 1).
Proof.
  assert (Forall (λ task, AutonomousTask.should_run task second = false)
            [AutonomousTask.ran_at steady 0]) as Hidle
    by (constructor; [reflexivity | constructor]).
  split; [reflexivity|]. split; [exact Hidle|].
  exact (idle_pulse_is_recorded idle_heartbeat fresh_disk second 3 eq_refl
           Hidle).
Defined.

Lemma task_failures_are_contained_witness :
  let self := mixed_heartbeat in
  OrionHeartbeat.pulse_count self = JInt 0
  ∧ OrionHeartbeat.tasks self = [broken] ++ steady :: []
  ∧ AutonomousTask.should_run steady (env_after [broken] (0 : Z)) = true
  ∧ ∃ p self' disk' env',
      OrionHeartbeat.pulse self fresh_disk 0 = Returned (p, self', disk', env')
      ∧ OrionHeartbeat.running self' = OrionHeartbeat.running self
      ∧ OrionHeartbeat.pulse_count self' = JInt (0 + 1)
      ∧ let x := AutonomousTask.execute steady (env_after [broken] (0 : Z)) in
        OrionHeartbeat.executed_entry (AutonomousTask.name steady) x.1.1
        ∈ details p
        ∧ OrionHeartbeat.tasks self' !! length [broken] = Some x.1.2
        ∧ ∀ e env1,
            AutonomousTask.action steady (env_after [broken] (0 : Z))
            = (Raised e, env1) →
            x.1.1 = failure_dict e
            ∧ x.1.2 = AutonomousTask.failed steady
            ∧ AutonomousTask.errors x.1.2 = AutonomousTask.errors steady + 1.
Proof.
  split; [reflexivity|]. split; [reflexivity|]. split; [reflexivity|].
  exact (task_failures_are_contained mixed_heartbeat fresh_disk 0 0 [broken]
           steady [] eq_refl eq_refl eq_refl).
Defined.

Lemma execute_and_pulse_frame_witness :
  let self := mixed_heartbeat in
  let task' := (AutonomousTask.execute broken 7).1.2 in
  OrionHeartbeat.pulse_count self = JInt 0
  ∧ (AutonomousTask.errors task' = AutonomousTask.errors broken + 1
     ∧ AutonomousTask.run_count task' = AutonomousTask.run_count broken
     ∧ AutonomousTask.last_run task' = AutonomousTask.last_run broken)
  ∧ same_config broken task'
  ∧ ∃ p self' disk' env',
      OrionHeartbeat.pulse self fresh_disk 0 = Returned (p, self', disk', env')
      ∧ Forall2 same_config (OrionHeartbeat.tasks self)
          (OrionHeartbeat.tasks self').
Proof.
  split; [reflexivity|].
  exact (execute_and_pulse_frame broken 7 mixed_heartbeat fresh_disk 0 0
           eq_refl).
Defined.

(** ** The scenario of three tasks

    Intervals 10, 20 and 30 seconds with the priorities 5, 9 and 1: the
    first pulse runs all three, by priority; a second pulse one second
    later runs none. *)
Example three_tasks_two_pulses :
  let self :=
    foldl OrionHeartbeat.register_task empty_heartbeat
      [steady; urgent; minor] in
  ∃ p1 p2 self' disk' env',
    OrionHeartbeat.pulse_sequence [wait second; wait second] self fresh_disk 0
    = Returned ([p1; p2], self', disk', env')
    ∧ details p1
      = [OrionHeartbeat.executed_entry "urgent" (success_dict JNull);
         OrionHeartbeat.executed_entry "steady" (success_dict JNull);
         OrionHeartbeat.executed_entry "minor" (success_dict JNull)]
    ∧ details p2 = []
    ∧ pulse_number p1 = Some (JInt 1)
    ∧ pulse_number p2 = Some (JInt 2).
Proof. do 5 eexists. split_and!; [vm_compute; reflexivity | done..]. Qed.

(** The registry of a new scheduler: the six core tasks by priority, the
    two of priority 10 and the two of priority 9 as they were registered. *)
Example core_registry :
  AutonomousTask.name <$> OrionHeartbeat.tasks (OrionHeartbeat.init fresh_disk)
  = ["self_reflection"; "consciousness_pulse"; "check_questions";
     "answer_pending_questions"; "goal_progress"; "knowledge_synthesis"].
Proof. reflexivity. Qed.


(** * Further properties of the module *)

(** ** Starting, stopping, reporting *)
Section lifecycle.
Context `{Host} `{!Surroundings}.
Implicit Types (self : OrionHeartbeat.t) (disk : Disk) (env : Env).

(** X1: [stop] clears [running] and nothing else.  The count it returns is
    the one [status] reports afterwards and the one in the snapshot it
    writes, where ["running"] is false; the log and the tasks are as
    before.  [start_time] is not reset: [status] goes on reporting the
    time since the start as ["uptime"]. *)
Theorem stop_then_status self disk env (later : Env) :
  let r := OrionHeartbeat.stop self disk env in
  let report := OrionHeartbeat.status r.1.2 later in
  json_item r.1.1 "status" = Some (JStr "stopped")
  ∧ json_item r.1.1 "total_pulses" = Some (OrionHeartbeat.pulse_count self)
  ∧ json_item report "running" = Some (JBool false)
  ∧ json_item report "pulse_count" = Some (OrionHeartbeat.pulse_count self)
  ∧ json_item report "uptime"
    = Some (JStr (OrionHeartbeat.uptime_str self later))
  ∧ (∃ state,
       HEARTBEAT_STATE r.2 = Document state
       ∧ json_item state "running" = Some (JBool false)
       ∧ json_item state "total_pulses"
         = Some (OrionHeartbeat.pulse_count self))
  ∧ HEARTBEAT_LOG r.2 = HEARTBEAT_LOG disk
  ∧ OrionHeartbeat.tasks r.1.2 = OrionHeartbeat.tasks self
  ∧ OrionHeartbeat.start_time r.1.2 = OrionHeartbeat.start_time self.
Proof.
  cbv zeta. unfold OrionHeartbeat.stop, OrionHeartbeat.status. simpl.
  split_and!; try done. eexists. by split_and!.
Qed.


(** As long as [time.sleep] returns, the loop of the thread goes on while
    [running] is set, which no pulse clears: it is a sequence of pulses,
    one sleep apart. *)
Lemma heartbeat_loop_sequence (fuel : nat) (interval : Interval)
    self disk env :
  sleep_returns interval →
  OrionHeartbeat.heartbeat_loop fuel interval self disk env
  = if OrionHeartbeat.running self then
      OrionHeartbeat.pulse_sequence (replicate fuel (after_sleep interval))
        self disk env
    else Returned ([], self, disk, env).
Proof.
  intros Hsleep.
  revert self disk env. induction fuel as [|fuel IH]; intros self disk env.
  - simpl. by destruct (OrionHeartbeat.running self).
  - simpl. destruct (OrionHeartbeat.running self) eqn:Hrun; [|done].
    destruct (OrionHeartbeat.pulse self disk env)
      as [[[[p self'] disk'] env']|e] eqn:Hpulse; [|done].
    apply pulse_inv in Hpulse as (_ & _ & Hrun' & _).
    specialize (Hsleep env').
    destruct (sleep interval env') as [env''|e] eqn:Hslept;
      [|discriminate Hsleep].
    assert (after_sleep interval env' = env'') as ->
      by (unfold after_sleep; by rewrite Hslept).
    by rewrite IH, Hrun', Hrun.
Qed.
End lifecycle.

(** ** Sequences of pulses *)
Section sequences.
Context `{Host} `{!Surroundings}.
Implicit Types (self : OrionHeartbeat.t) (disk : Disk) (env : Env).

Lemma pulse_sequence_accounting (sleeps : list (Env → Env)) self disk env n :
  OrionHeartbeat.pulse_count self = JInt n →
  ∃ ps self' disk' env',
    OrionHeartbeat.pulse_sequence sleeps self disk env
    = Returned (ps, self', disk', env')
    ∧ pulse_number <$> ps
      = (λ i : nat, Some (JInt (n + 1 + Z.of_nat i)))
        <$> seq 0 (length sleeps)
    ∧ HEARTBEAT_LOG disk'
      = HEARTBEAT_LOG disk ++ (HeartbeatPulse.to_dict <$> ps)
    ∧ OrionHeartbeat.pulse_count self'
      = JInt (n + Z.of_nat (length sleeps))
    ∧ OrionHeartbeat.running self' = OrionHeartbeat.running self
    ∧ (sleeps ≠ [] →
       ∃ state, HEARTBEAT_STATE disk' = Document state
                ∧ json_item state "total_pulses"
                  = Some (JInt (n + Z.of_nat (length sleeps)))).
Proof.
  revert self disk env n.
  induction sleeps as [|sleep1 sleeps IH]; intros self disk env n Hn.
  - exists [], self, disk, env. simpl. split_and!; try done.
    + by rewrite app_nil_r.
    + rewrite Hn. f_equal. lia.
  - simpl. rewrite (pulse_returns _ disk env _ Hn). cbv zeta.
    set (r := OrionHeartbeat.run_tasks (OrionHeartbeat.tasks self) env).
    set (p := HeartbeatPulse.init "heartbeat" (pulse_dict (n + 1) r.1.2) r.2).
    set (self1 := OrionHeartbeat.set_tasks
                    (OrionHeartbeat.set_pulse_count self (JInt (n + 1)))
                    r.1.1).
    set (disk1 := OrionHeartbeat.save_state self1
                    (OrionHeartbeat.log_pulse p disk) r.2).
    destruct (IH self1 disk1 (sleep1 r.2) (n + 1) eq_refl)
      as (ps & self' & disk' & env' & Hseq & Hnums & Hlog & Hcount & Hrun
          & Hsnap).
    rewrite Hseq. exists (p :: ps), self', disk', env'.
    split_and!; try done.
    + rewrite fmap_cons, Hnums. simpl. f_equal.
      * unfold p. rewrite pulse_dict_number. do 2 f_equal. lia.
      * rewrite <-fmap_S_seq, <-list_fmap_compose.
        apply list_fmap_ext. intros i x _. simpl. do 2 f_equal. lia.
    + rewrite Hlog. simpl. by rewrite <-app_assoc.
    + rewrite Hcount. f_equal. simpl length. lia.
    + intros _. destruct sleeps as [|sleep2 sleeps].
      * simpl in Hseq. injection Hseq as <- <- <- <-.
        eexists. split; [done|]. simpl. do 2 f_equal.
      * destruct Hsnap as (state & Hstate & Htotal); [done|].
        exists state. split; [done|]. rewrite Htotal. do 2 f_equal.
        simpl length. lia.
Qed.

(** X3: with an interval that [time.sleep] takes, no task ends the loop
    of the thread, only the flag does.  On a stopped scheduler it returns
    at once and leaves everything as it is.  On a running one with the
    count [n], [fuel] turns give [fuel] pulses, numbered [n + 1],
    [n + 2], ... in this order, whatever the tasks do; the log grows by
    exactly the dictionaries of these pulses, the count and the snapshot
    end at [n + fuel], and [running] is still set. *)
Theorem heartbeat_loop_accounting (fuel : nat) (interval : Interval)
    self disk env n :
  OrionHeartbeat.pulse_count self = JInt n →
  sleep_returns interval →
  if OrionHeartbeat.running self then
    ∃ ps self' disk' env',
      OrionHeartbeat.heartbeat_loop fuel interval self disk env
      = Returned (ps, self', disk', env')
      ∧ pulse_number <$> ps
        = (λ i : nat, Some (JInt (n + 1 + Z.of_nat i))) <$> seq 0 fuel
      ∧ HEARTBEAT_LOG disk'
        = HEARTBEAT_LOG disk ++ (HeartbeatPulse.to_dict <$> ps)
      ∧ OrionHeartbeat.pulse_count self' = JInt (n + Z.of_nat fuel)
      ∧ OrionHeartbeat.running self' = true
      ∧ (fuel ≠ 0%nat →
         ∃ state, HEARTBEAT_STATE disk' = Document state
                  ∧ json_item state "total_pulses"
                    = Some (JInt (n + Z.of_nat fuel)))
  else
    OrionHeartbeat.heartbeat_loop fuel interval self disk env
    = Returned ([], self, disk, env).
Proof.
  intros Hn Hsleep. rewrite heartbeat_loop_sequence by done.
  destruct (OrionHeartbeat.running self) eqn:Hrun; [|done].
  destruct (pulse_sequence_accounting
              (replicate fuel (after_sleep interval)) self disk env n Hn)
    as (ps & self' & disk' & env' & Hseq & Hnums & Hlog & Hcount & Hrun'
        & Hsnap).
  rewrite length_replicate in *.
  exists ps, self', disk', env'. split_and!; try done.
  - congruence.
  - intros Hfuel. apply Hsnap. by destruct fuel.
Qed.

End sequences.

(** ** What one pulse does to the registry *)
Section accounting.
Context `{Host}.
Implicit Types (task : AutonomousTask.t) (ts : list AutonomousTask.t).
Implicit Types (self : OrionHeartbeat.t) (disk : Disk) (env : Env).

Lemma entry_success_of_execute task env :
  entry_success
    (OrionHeartbeat.executed_entry (AutonomousTask.name task)
       (AutonomousTask.execute task env).1.1)
  = Some (negb (is_raised (AutonomousTask.action task env).1)).
Proof.
  unfold AutonomousTask.execute.
  by destruct (AutonomousTask.action task env) as [[result|e] env1].
Qed.

Lemma execute_at_most_once task env :
  at_most_one_execution task (AutonomousTask.execute task env).1.2
  ∧ AutonomousTask.run_count (AutonomousTask.execute task env).1.2
    = AutonomousTask.run_count task
      + Z.b2z (negb (is_raised (AutonomousTask.action task env).1))
  ∧ AutonomousTask.errors (AutonomousTask.execute task env).1.2
    = AutonomousTask.errors task
      + Z.b2z (is_raised (AutonomousTask.action task env).1).
Proof.
  unfold AutonomousTask.execute, at_most_one_execution.
  destruct (AutonomousTask.action task env) as [[result|e] env1]; simpl.
  - split_and!; [right; left; done | lia..].
  - split_and!; [right; right; done | lia..].
Qed.

Lemma run_tasks_counters ts env :
  let r := OrionHeartbeat.run_tasks ts env in
  total_run_count r.1.1
  = total_run_count ts + Z.of_nat (length (successes r.1.2))
  ∧ total_errors r.1.1
    = total_errors ts + Z.of_nat (length (failures r.1.2))
  ∧ (length (successes r.1.2) + length (failures r.1.2))%nat
    = length r.1.2
  ∧ Forall2 at_most_one_execution ts r.1.1.
Proof.
  cbv zeta. revert env. induction ts as [|task ts IH]; intros env.
  - simpl. by split_and!.
  - destruct (AutonomousTask.should_run task env) eqn:Hdue.
    + rewrite run_tasks_due by done. cbv zeta.
      destruct (IH (AutonomousTask.execute task env).2)
        as (Hruns & Herrs & Hlen & Hall).
      destruct (execute_at_most_once task env) as (Hone & Hrun & Herr).
      unfold successes, failures in *. simpl fst. simpl snd.
      rewrite !filter_cons, entry_success_of_execute.
      simpl total_run_count. simpl total_errors.
      rewrite Hruns, Herrs, Hrun, Herr.
      destruct (is_raised (AutonomousTask.action task env).1); simpl negb;
        repeat case_decide; try done; simpl length; cbn [Z.b2z];
        rewrite ?Nat2Z.inj_succ;
        (split_and!; [lia | lia | lia | by constructor]).
    + rewrite run_tasks_not_due by done. cbv zeta.
      destruct (IH env) as (Hruns & Herrs & Hlen & Hall).
      simpl fst. simpl snd. simpl total_run_count. simpl total_errors.
      split_and!; [lia | lia | done |].
      constructor; [by left | done].
Qed.

(** X4: a pulse executes a task at most once.  Over the registry, the
    [run_count]s grow by the number of entries of [details] that report a
    success and the [errors] by the number that report a failure, every
    entry being one or the other; no counter of any task goes down. *)
Theorem pulse_accounts_for_every_execution self disk env n :
  OrionHeartbeat.pulse_count self = JInt n →
  ∃ p self' disk' env',
    OrionHeartbeat.pulse self disk env = Returned (p, self', disk', env')
    ∧ total_run_count (OrionHeartbeat.tasks self')
      = total_run_count (OrionHeartbeat.tasks self)
        + Z.of_nat (length (successes (details p)))
    ∧ total_errors (OrionHeartbeat.tasks self')
      = total_errors (OrionHeartbeat.tasks self)
        + Z.of_nat (length (failures (details p)))
    ∧ tasks_executed p
      = Some (JInt (Z.of_nat (length (successes (details p))
                              + length (failures (details p)))))
    ∧ Forall2 at_most_one_execution (OrionHeartbeat.tasks self)
        (OrionHeartbeat.tasks self').
Proof.
  intros Hn. rewrite (pulse_returns _ disk env _ Hn). cbv zeta.
  do 4 eexists. split; [done|].
  destruct (run_tasks_counters (OrionHeartbeat.tasks self) env)
    as (Hruns & Herrs & Hlen & Hall).
  rewrite pulse_dict_details, pulse_dict_tasks_executed, Hlen.
  by split_and!.
Qed.

(** X5: a pulse leaves a task that is not due when the loop reaches it
    exactly as it is, its [last_run] and counters included, and it spends
    no time on it: the entries of [details] are those of the tasks before
    it followed by those of the tasks after it. *)
Theorem pulse_skips_task_not_due self disk env n before task after :
  OrionHeartbeat.pulse_count self = JInt n →
  OrionHeartbeat.tasks self = before ++ task :: after →
  AutonomousTask.should_run task (env_after before env) = false →
  ∃ p self' disk' env',
    OrionHeartbeat.pulse self disk env = Returned (p, self', disk', env')
    ∧ OrionHeartbeat.tasks self' !! length before = Some task
    ∧ details p
      = (OrionHeartbeat.run_tasks before env).1.2
        ++ (OrionHeartbeat.run_tasks after (env_after before env)).1.2
    ∧ env' = env_after after (env_after before env).
Proof.
  intros Hn Hts Hdue. rewrite (pulse_returns _ disk env _ Hn). cbv zeta.
  do 4 eexists. split; [done|].
  rewrite pulse_dict_details, Hts, run_tasks_app. cbv zeta.
  unfold env_after in *. rewrite run_tasks_not_due by done. simpl.
  split_and!; [|done..].
  rewrite lookup_app_r by (by rewrite run_tasks_length).
  by rewrite run_tasks_length, Nat.sub_diag.
Qed.
End accounting.

(** ** Construction and registration *)
Section construction.
Context `{Host}.
Implicit Types (task : AutonomousTask.t) (ts : list AutonomousTask.t).
Implicit Types (self : OrionHeartbeat.t) (disk : Disk) (env : Env).

Lemma init_tasks disk :
  OrionHeartbeat.tasks (OrionHeartbeat.init disk)
  = [AutonomousTask.init "self_reflection" 3600 task_self_reflection 10;
     AutonomousTask.init "consciousness_pulse" 600 task_consciousness_pulse 10;
     AutonomousTask.init "check_questions" 300 task_check_questions 9;
     AutonomousTask.init "answer_pending_questions" 600
       task_answer_pending_questions 9;
     AutonomousTask.init "goal_progress" 1800 task_check_goals 8;
     AutonomousTask.init "knowledge_synthesis" 7200 task_knowledge_synthesis 7].
Proof.
  unfold OrionHeartbeat.init, OrionHeartbeat.load_state.
  destruct (HEARTBEAT_STATE disk) as [|e|j]; [done..|].
  by destruct (OrionHeartbeat.load_state_body (Document j)).
Qed.

Lemma due_tasks_never_run ts env :
  Forall (λ task, AutonomousTask.last_run task = None) ts →
  (due_tasks ts env).*1 = ts.
Proof.
  intros Hall. revert env.
  induction Hall as [|task ts Hnone _ IH]; intros env; [done|].
  simpl. unfold AutonomousTask.should_run at 1. rewrite Hnone. simpl.
  by rewrite IH.
Qed.

(** [pulse] returns exactly when the increment of the count does. *)
Lemma pulse_returns_incr self disk env m :
  py_incr (OrionHeartbeat.pulse_count self) = Returned (JInt m) →
  let r := OrionHeartbeat.run_tasks (OrionHeartbeat.tasks self) env in
  let self' :=
    OrionHeartbeat.set_tasks
      (OrionHeartbeat.set_pulse_count self (JInt m)) r.1.1 in
  let p := HeartbeatPulse.init "heartbeat" (pulse_dict m r.1.2) r.2 in
  OrionHeartbeat.pulse self disk env
  = Returned (p, self',
              OrionHeartbeat.save_state self'
                (OrionHeartbeat.log_pulse p disk) r.2,
              r.2).
Proof.
  intros Hm. unfold OrionHeartbeat.pulse. rewrite Hm. simpl.
  by destruct (OrionHeartbeat.run_tasks _ env) as [[ts ex] env'].
Qed.

Lemma py_incr_int (j k : json) :
  py_incr j = Returned k → ∃ m, k = JInt m.
Proof. destruct j; intros [= <-]; by eexists. Qed.

(** X6: nothing but the pulse count survives a restart.  Whatever the
    snapshot holds, a new scheduler is stopped, has no start time, and
    holds the six core tasks as the constructor of a task leaves them, all
    of which the loop of a pulse finds due.  Its first pulse therefore
    executes all six, in the order of the registry, whenever it gets as
    far as the loop: when the count taken from the snapshot can be
    incremented.  When it cannot, the pulse raises at the increment. *)
Theorem restart_forgets_the_tasks (snapshot : Disk) disk env :
  let self := OrionHeartbeat.init snapshot in
  OrionHeartbeat.running self = false
  ∧ OrionHeartbeat.start_time self = None
  ∧ Forall never_ran (OrionHeartbeat.tasks self)
  ∧ length (OrionHeartbeat.tasks self) = 6%nat
  ∧ (due_tasks (OrionHeartbeat.tasks self) env).*1
    = OrionHeartbeat.tasks self
  ∧ match py_incr (OrionHeartbeat.pulse_count self) with
    | Returned k =>
        ∃ p self' disk' env',
          OrionHeartbeat.pulse self disk env
          = Returned (p, self', disk', env')
          ∧ pulse_number p = Some k
          ∧ tasks_executed p = Some (JInt 6)
          ∧ details p
            = entry_of <$> due_tasks (OrionHeartbeat.tasks self) env
    | Raised e => OrionHeartbeat.pulse self disk env = Raised e
    end.
Proof.
  cbv zeta.
  assert (Forall never_ran
            (OrionHeartbeat.tasks (OrionHeartbeat.init snapshot)))
    as Hnever.
  { rewrite init_tasks. by repeat constructor. }
  assert ((due_tasks (OrionHeartbeat.tasks (OrionHeartbeat.init snapshot))
             env).*1
          = OrionHeartbeat.tasks (OrionHeartbeat.init snapshot)) as Hdue.
  { apply due_tasks_never_run. eapply Forall_impl; [exact Hnever|].
    by intros task (? & _). }
  split_and!; try done.
  - unfold OrionHeartbeat.init, OrionHeartbeat.load_state.
    destruct (HEARTBEAT_STATE snapshot) as [|e|j]; [done..|].
    by destruct (OrionHeartbeat.load_state_body (Document j)).
  - unfold OrionHeartbeat.init, OrionHeartbeat.load_state.
    destruct (HEARTBEAT_STATE snapshot) as [|e|j]; [done..|].
    by destruct (OrionHeartbeat.load_state_body (Document j)).
  - by rewrite init_tasks.
  - destruct (py_incr (OrionHeartbeat.pulse_count
                         (OrionHeartbeat.init snapshot)))
      as [k|e] eqn:Hincr.
    + destruct (py_incr_int _ _ Hincr) as [m ->].
      rewrite (pulse_returns_incr _ disk env _ Hincr). cbv zeta.
      do 4 eexists. split; [done|].
      rewrite pulse_dict_number, pulse_dict_tasks_executed,
        pulse_dict_details.
      rewrite run_tasks_executed. split_and!; try done.
      rewrite length_fmap, <-(length_fmap fst), Hdue.
      by rewrite init_tasks.
    + unfold OrionHeartbeat.pulse. by rewrite Hincr.
Qed.

Lemma filter_none {A} (P : A → Prop) `{!∀ x, Decision (P x)} (l : list A) :
  Forall (λ a, ¬ P a) l → filter P l = [].
Proof.
  induction 1 as [|y l Hy _ IH]; [done|].
  by rewrite filter_cons, decide_False.
Qed.

Lemma filter_all {A} (P : A → Prop) `{!∀ x, Decision (P x)} (l : list A) :
  Forall P l → filter P l = l.
Proof.
  induction 1 as [|y l Hy _ IH]; [done|].
  by rewrite filter_cons, decide_True, IH.
Qed.

Lemma Forall_filter_keep {A} (P Q : A → Prop) `{!∀ x, Decision (P x)}
    (l : list A) :
  Forall Q l → Forall Q (filter P l).
Proof.
  induction 1 as [|y l Hy _ IH]; [constructor|].
  rewrite filter_cons. case_decide; [by constructor | done].
Qed.

Lemma insert_by_key_first {A} (key : A → Z) (x : A) (l : list A) :
  Forall (λ a, key x ≤ key a) l → insert_by_key key x l = x :: l.
Proof.
  intros Hall. destruct Hall as [|y l Hy _]; [done|].
  simpl. by rewrite bool_decide_eq_true_2.
Qed.

Lemma list_sort_snoc {A} (key : A → Z) (x : A) (l : list A) :
  StronglySorted (λ a b, key a ≤ key b) l →
  list_sort key (l ++ [x])
  = filter (λ a, key a ≤ key x) l ++ x :: filter (λ a, key x < key a) l.
Proof.
  unfold list_sort. rewrite foldr_app. simpl.
  induction 1 as [|y l Hsorted IH Hy]; [done|].
  simpl. rewrite IH, !filter_cons.
  destruct (decide (key y ≤ key x)) as [Hle|Hgt].
  - rewrite decide_False by lia.
    rewrite insert_by_key_first; [done|].
    apply Forall_app. split.
    + by apply Forall_filter_keep.
    + constructor; [done|]. by apply Forall_filter_keep.
  - rewrite decide_True by lia.
    rewrite filter_none, filter_all.
    + simpl. rewrite bool_decide_eq_false_2 by lia.
      by rewrite insert_by_key_first.
    + eapply Forall_impl; [exact Hy|]. simpl. lia.
    + eapply Forall_impl; [exact Hy|]. simpl. lia.
Qed.

(** X7: on a registry in order, [register_task] changes the place of no
    task.  The new task goes behind every task of its own or a higher
    priority and before every task of a lower one. *)
Theorem register_task_position self task :
  StronglySorted higher_first (OrionHeartbeat.tasks self) →
  OrionHeartbeat.tasks (OrionHeartbeat.register_task self task)
  = filter (λ t, AutonomousTask.priority task ≤ AutonomousTask.priority t)
      (OrionHeartbeat.tasks self)
    ++ task
    :: filter (λ t, AutonomousTask.priority t < AutonomousTask.priority task)
         (OrionHeartbeat.tasks self).
Proof.
  intros Hsorted. rewrite register_task_tasks, list_sort_snoc.
  - f_equal; [|f_equal]; apply list_filter_iff; intros t; lia.
  - induction Hsorted as [|t ts Hts IH Ht]; constructor; [done|].
    eapply Forall_impl; [exact Ht|]. unfold higher_first. simpl. lia.
Qed.
End construction.

(** ** Records and reports *)
Section reports.
Context `{Host} `{!Surroundings}.
Implicit Types (task : AutonomousTask.t) (ts : list AutonomousTask.t).
Implicit Types (self : OrionHeartbeat.t) (disk : Disk) (env : Env).

(** X8: for a scheduler that was started at most 2^53 microseconds from
    the reading of the clock, [uptime_str] prints whole hours and minutes
    that add up to the whole minutes elapsed since the start, rounded
    down, with the minutes between 0 and 59; this also holds when the
    clock reads a time before the start, where the hours are negative.
    (Python divides the float of the elapsed seconds, which within this
    bound gives the hours and minutes of the whole microseconds; beyond
    it the float can be rounded up to the next minute.) *)
Theorem uptime_str_decomposes self env started :
  OrionHeartbeat.start_time self = Some started →
  elapsed_exact (clock env - started) →
  ∃ hours minutes,
    OrionHeartbeat.uptime_str self env
    = pretty hours +:+ "h " +:+ pretty minutes +:+ "m"
    ∧ 0 ≤ minutes < 60
    ∧ hours * 60 + minutes = (clock env - started) `div` (60 * second).
Proof.
  intros Hstart _. unfold OrionHeartbeat.uptime_str. rewrite Hstart.
  set (delta := clock env - started).
  change (3600 * second) with 3600000000.
  change (60 * second) with 60000000.
  exists (delta `div` 3600000000), ((delta `mod` 3600000000) `div` 60000000).
  assert (0 ≤ delta `mod` 3600000000 < 3600000000) as Hmod
    by (apply Z.mod_pos_bound; lia).
  split_and!; [done | | |].
  - apply Z.div_pos; lia.
  - apply Z.div_lt_upper_bound; lia.
  - rewrite (Z.div_mod delta 3600000000) at 3 by lia.
    replace (3600000000 * (delta `div` 3600000000))
      with (delta `div` 3600000000 * 60 * 60000000) by lia.
    rewrite Z.div_add_l by lia. lia.
Qed.

(** X9: the identifier of a pulse record is computed from the time of the
    record alone.  Two pulses recorded at the same clock reading carry the
    same [pulse_id] and the same timestamp, whatever scheduler they come
    from and whatever they executed; only their numbers tell them
    apart. *)
Theorem pulse_id_follows_the_clock self1 disk1 env1 n1 self2 disk2 env2 n2 :
  OrionHeartbeat.pulse_count self1 = JInt n1 →
  OrionHeartbeat.pulse_count self2 = JInt n2 →
  clock (env_after (OrionHeartbeat.tasks self1) env1)
  = clock (env_after (OrionHeartbeat.tasks self2) env2) →
  ∃ p1 p2,
    pulse_record self1 disk1 env1 = Some p1
    ∧ pulse_record self2 disk2 env2 = Some p2
    ∧ HeartbeatPulse.pulse_id p1 = HeartbeatPulse.pulse_id p2
    ∧ HeartbeatPulse.timestamp p1 = HeartbeatPulse.timestamp p2
    ∧ pulse_number p1 = Some (JInt (n1 + 1))
    ∧ pulse_number p2 = Some (JInt (n2 + 1)).
Proof.
  intros Hn1 Hn2 Hclock. unfold pulse_record.
  rewrite (pulse_returns _ disk1 env1 _ Hn1).
  rewrite (pulse_returns _ disk2 env2 _ Hn2). cbv zeta.
  do 2 eexists. split; [done|]. split; [done|].
  unfold env_after in Hclock.
  rewrite !pulse_dict_number. unfold HeartbeatPulse.init. simpl.
  rewrite Hclock. done.
Qed.

Lemma task_summary_of_status task :
  HeartbeatIntegration.task_summary (OrionHeartbeat.task_status task)
  = Returned (summary_of task).
Proof. done. Qed.

Lemma summaries_of_status ts :
  py_list_comp HeartbeatIntegration.task_summary
    (OrionHeartbeat.task_status <$> ts)
  = Returned (summary_of <$> ts).
Proof.
  induction ts as [|task ts IH]; [done|].
  rewrite fmap_cons. cbn [py_list_comp].
  by rewrite task_summary_of_status, IH.
Qed.

Lemma status_get self env :
  let report := OrionHeartbeat.status self env in
  (∀ d, json_get report "version" d = Returned (JStr OrionHeartbeat.VERSION))
  ∧ (∀ d, json_get report "running" d
          = Returned (JBool (OrionHeartbeat.running self)))
  ∧ (∀ d, json_get report "pulse_count" d
          = Returned (OrionHeartbeat.pulse_count self))
  ∧ (∀ d, json_get report "uptime" d
          = Returned (JStr (OrionHeartbeat.uptime_str self env)))
  ∧ (∀ d, json_get report "tasks" d
          = Returned (JArr (OrionHeartbeat.task_status
                              <$> OrionHeartbeat.tasks self))).
Proof. by split_and!. Qed.

(** X10: for the scheduler of the process, the two reports of
    [HeartbeatIntegration] never end in their [except] branch.
    [get_task_summary] lists every registered task, in the order of the
    registry, with its name, its interval in whole minutes rounded down
    and its [run_count] (failed executions are not shown);
    [get_status] passes on what [status] reports and counts the tasks
    of the registry. *)
Theorem integration_reports self env :
  HeartbeatIntegration.get_task_summary (Some self) env
  = summary_of <$> OrionHeartbeat.tasks self
  ∧ HeartbeatIntegration.get_status (Some self) env
    = JObj {[ "available" := JBool true;
              "version" := JStr OrionHeartbeat.VERSION;
              "running" := JBool (OrionHeartbeat.running self);
              "pulse_count" := OrionHeartbeat.pulse_count self;
              "uptime" := JStr (OrionHeartbeat.uptime_str self env);
              "tasks" := JInt (Z.of_nat (length (OrionHeartbeat.tasks self)));
              "task_details"
                := JArr (OrionHeartbeat.task_status
                           <$> OrionHeartbeat.tasks self) ]}.
Proof.
  destruct (status_get self env) as (Hversion & Hrunning & Hcount & Huptime
                                     & Htasks).
  split.
  - unfold HeartbeatIntegration.get_task_summary,
      HeartbeatIntegration.get_task_summary_body.
    by rewrite Htasks, summaries_of_status.
  - unfold HeartbeatIntegration.get_status,
      HeartbeatIntegration.get_status_body.
    rewrite Hversion, Hrunning, Hcount, Huptime, Htasks.
    simpl py_len. by rewrite length_fmap.
Qed.
End reports.

(** ** The consciousness task *)
Section consciousness.
Context `{Host} `{!Surroundings}.
Implicit Types (self : OrionHeartbeat.t) (env : Env).


End consciousness.

(** ** Progress of a goal *)
Section goals.
Context `{Host}.
Implicit Types (g : AutonomousGoals.Goal) (l : list AutonomousGoals.Goal).

Lemma py_list_remove_updated l (i : nat) g0 g :
  l !! i = Some g0 →
  (∀ (j : nat) y, l !! j = Some y → (j < i)%nat → y ≠ g) →
  py_list_remove g (<[i:=g]> l) = Returned (delete i l).
Proof.
  revert i. induction l as [|y l IH]; intros i Hi Hbefore; [done|].
  destruct i as [|i]; simpl.
  - by rewrite decide_True.
  - rewrite decide_False by (apply (Hbefore 0%nat); [done | lia]).
    rewrite (IH i); [done | done |].
    intros j z Hj Hlt. apply (Hbefore (S j)); [done | lia].
Qed.

(** X12: [update_progress] on the first active goal with the given id.
    The progress stored is the smaller of 100 and the value given (a
    negative value is stored as it is).  Below 100 the goal stays where it
    is among the active goals; from 100 on it is marked completed, leaves
    the active goals and becomes the last completed goal, and the goal
    that leaves is the one that was updated, also when other goals look
    the same.  Either way no goal is lost, and the file holds the new
    goals. *)
Theorem update_progress_moves_the_goal (self : AutonomousGoals.t)
    (file : option AutonomousGoals.t) (goal_id : string) (new_progress : Z)
    (env : Env) (i : nat) g :
  list_find (λ g, AutonomousGoals.id g = goal_id)
    (AutonomousGoals.active_goals self) = Some (i, g) →
  ∃ g' self',
    AutonomousGoals.update_progress self file goal_id new_progress env
    = Returned (Some g', self', Some self')
    ∧ AutonomousGoals.id g' = goal_id
    ∧ AutonomousGoals.progress g' = Z.min 100 new_progress
    ∧ AutonomousGoals.goal g' = AutonomousGoals.goal g
    ∧ (length (AutonomousGoals.active_goals self')
       + length (AutonomousGoals.completed_goals self'))%nat
      = (length (AutonomousGoals.active_goals self)
         + length (AutonomousGoals.completed_goals self))%nat
    ∧ if bool_decide (100 ≤ new_progress) then
        AutonomousGoals.active_goals self'
        = delete i (AutonomousGoals.active_goals self)
        ∧ AutonomousGoals.completed_goals self'
          = AutonomousGoals.completed_goals self ++ [g']
        ∧ AutonomousGoals.status g' = "completed"
        ∧ AutonomousGoals.progress g' = 100
      else
        AutonomousGoals.active_goals self'
        = <[i:=g']> (AutonomousGoals.active_goals self)
        ∧ AutonomousGoals.completed_goals self'
          = AutonomousGoals.completed_goals self
        ∧ AutonomousGoals.status g' = AutonomousGoals.status g.
Proof.
  intros Hfind. unfold AutonomousGoals.update_progress. rewrite Hfind.
  apply list_find_Some in Hfind as (Hi & Hid & Hfirst).
  case_bool_decide as Hdone.
  - set (g' := AutonomousGoals.complete _ _).
    rewrite (py_list_remove_updated _ i g g' Hi).
    + exists g'. eexists. split; [done|]. simpl.
      split_and!; try done; [ | lia ].
      rewrite length_delete by (by eexists). rewrite length_app. simpl.
      apply lookup_lt_Some in Hi. lia.
    + intros j y Hj Hlt ->. by apply (Hfirst j _ Hj Hlt).
  - exists (AutonomousGoals.set_progress g (Z.min 100 new_progress)).
    eexists. split; [done|]. simpl.
    split_and!; try done. by rewrite length_insert.
Qed.
End goals.

(** ** The log, the snapshot and the order of the registry *)
Section files.
Context `{Host}.
Implicit Types (task : AutonomousTask.t) (ts : list AutonomousTask.t).
Implicit Types (self : OrionHeartbeat.t) (disk : Disk) (env : Env).

(** X13: what [single_pulse] returns is what it has written.  The
    dictionary it returns is the new last line of the log, which grows by
    this one line, and the number in that line is the ["total_pulses"] of
    the snapshot, which also records the size of the registry and the
    [running] flag. *)
Theorem single_pulse_is_logged self disk env n :
  OrionHeartbeat.pulse_count self = JInt n →
  ∃ d self' disk' env' result state,
    OrionHeartbeat.single_pulse self disk env
    = Returned (d, self', disk', env')
    ∧ HEARTBEAT_LOG disk' = HEARTBEAT_LOG disk ++ [d]
    ∧ json_item d "action" = Some (JStr "heartbeat")
    ∧ json_item d "result" = Some result
    ∧ json_item result "pulse_number" = Some (JInt (n + 1))
    ∧ HEARTBEAT_STATE disk' = Document state
    ∧ json_item state "total_pulses" = Some (JInt (n + 1))
    ∧ json_item state "tasks"
      = Some (JInt (Z.of_nat (length (OrionHeartbeat.tasks self))))
    ∧ json_item state "running" = Some (JBool (OrionHeartbeat.running self)).
Proof.
  intros Hn. unfold OrionHeartbeat.single_pulse.
  rewrite (pulse_returns _ disk env _ Hn). cbv zeta.
  set (r := OrionHeartbeat.run_tasks (OrionHeartbeat.tasks self) env).
  do 4 eexists. exists (pulse_dict (n + 1) r.1.2). eexists.
  split; [done|].
  split_and!; try done.
  simpl. unfold r. by rewrite run_tasks_length.
Qed.

Lemma same_config_below (p : Z) ts ts' :
  Forall2 same_config ts ts' →
  Forall (λ t, AutonomousTask.priority t ≤ p) ts →
  Forall (λ t, AutonomousTask.priority t ≤ p) ts'.
Proof.
  induction 1 as [|t t' ts ts' (_ & _ & Hprio & _) _ IH]; [done|].
  intros [Ht Hts]%Forall_cons. constructor; [lia | by apply IH].
Qed.

Lemma same_config_sorted ts ts' :
  Forall2 same_config ts ts' →
  StronglySorted higher_first ts → StronglySorted higher_first ts'.
Proof.
  induction 1 as [|t t' ts ts' Hsame Hall IH]; [done|].
  intros [Hts Ht]%StronglySorted_inv. constructor; [by apply IH|].
  destruct Hsame as (_ & _ & Hprio & _). unfold higher_first. rewrite Hprio.
  by eapply same_config_below.
Qed.

Lemma same_config_fmap ts ts' :
  Forall2 same_config ts ts' →
  AutonomousTask.priority <$> ts' = AutonomousTask.priority <$> ts
  ∧ AutonomousTask.name <$> ts' = AutonomousTask.name <$> ts.
Proof.
  induction 1 as [|t t' ts ts' (Hname & _ & Hprio & _) _ [IHp IHn]]; [done|].
  rewrite !fmap_cons. split; by f_equal.
Qed.

(** X14: the registry is always in order.  It is in order in a new
    scheduler; [register_task] leaves it in order whatever it was before;
    and a pulse changes neither the priorities nor the names nor the
    places of the tasks. *)
Theorem registry_stays_in_order self disk env n task (disk0 : Disk) :
  OrionHeartbeat.pulse_count self = JInt n →
  StronglySorted higher_first (OrionHeartbeat.tasks self) →
  StronglySorted higher_first
    (OrionHeartbeat.tasks (OrionHeartbeat.init disk0))
  ∧ StronglySorted higher_first
      (OrionHeartbeat.tasks (OrionHeartbeat.register_task self task))
  ∧ ∃ p self' disk' env',
      OrionHeartbeat.pulse self disk env = Returned (p, self', disk', env')
      ∧ StronglySorted higher_first (OrionHeartbeat.tasks self')
      ∧ AutonomousTask.priority <$> OrionHeartbeat.tasks self'
        = AutonomousTask.priority <$> OrionHeartbeat.tasks self
      ∧ AutonomousTask.name <$> OrionHeartbeat.tasks self'
        = AutonomousTask.name <$> OrionHeartbeat.tasks self.
Proof.
  intros Hn Hsorted. split_and!.
  - unfold OrionHeartbeat.init, OrionHeartbeat.register_core_tasks.
    cbv zeta. rewrite register_task_tasks. apply registry_sorted.
  - rewrite register_task_tasks. apply registry_sorted.
  - rewrite (pulse_returns _ disk env _ Hn). cbv zeta.
    do 4 eexists. split; [done|]. simpl.
    pose proof (run_tasks_same_config (OrionHeartbeat.tasks self) env)
      as Hsame.
    destruct (same_config_fmap _ _ Hsame) as [Hprio Hname].
    split_and!; [by eapply same_config_sorted | done..].
Qed.
End files.

(** ** Edges of the configuration *)
Section edges.
Context `{Host} `{!Surroundings}.
Implicit Types (task : AutonomousTask.t) (ts : list AutonomousTask.t).
Implicit Types (self : OrionHeartbeat.t) (disk : Disk) (env : Env).

(** X15: a task whose interval is zero or negative is due at every pulse
    that reaches it at a time not before its last run: the pulse executes
    it, however little time has passed. *)
Theorem nonpositive_interval_runs_every_pulse self disk env n
    before task after :
  OrionHeartbeat.pulse_count self = JInt n →
  OrionHeartbeat.tasks self = before ++ task :: after →
  AutonomousTask.interval task ≤ 0 →
  (∀ last, AutonomousTask.last_run task = Some last →
           last ≤ clock (env_after before env)) →
  ∃ p self' disk' env',
    OrionHeartbeat.pulse self disk env = Returned (p, self', disk', env')
    ∧ OrionHeartbeat.executed_entry (AutonomousTask.name task)
        (AutonomousTask.execute task (env_after before env)).1.1
      ∈ details p
    ∧ OrionHeartbeat.tasks self' !! length before
      = Some (AutonomousTask.execute task (env_after before env)).1.2.
Proof.
  intros Hn Hts Hinterval Hclock.
  assert (AutonomousTask.should_run task (env_after before env) = true)
    as Hdue.
  { apply should_run_spec.
    destruct (AutonomousTask.last_run task) as [last|] eqn:Hlast;
      [right | by left].
    exists last. split; [done|]. specialize (Hclock last eq_refl).
    unfold second. nia. }
  rewrite (pulse_returns _ disk env _ Hn). cbv zeta.
  do 4 eexists. split; [done|].
  destruct (run_tasks_reaches before task after env Hdue) as [Hentry Hlookup].
  by rewrite pulse_dict_details, Hts.
Qed.

End edges.

(** * The further properties on the sample host *)

Lemma heartbeat_loop_accounting_witness :
  OrionHeartbeat.pulse_count started_heartbeat = JInt 0
  ∧ sleep_returns (60 * second : Interval)
  ∧ ∃ ps self' disk' env',
      OrionHeartbeat.heartbeat_loop 2 (60 * second) started_heartbeat
        fresh_disk 0
      = Returned (ps, self', disk', env')
      ∧ pulse_number <$> ps
        = (λ i : nat, Some (JInt (0 + 1 + Z.of_nat i))) <$> seq 0 2
      ∧ HEARTBEAT_LOG disk'
        = HEARTBEAT_LOG fresh_disk ++ (HeartbeatPulse.to_dict <$> ps)
      ∧ OrionHeartbeat.pulse_count self' = JInt (0 + Z.of_nat 2)
      ∧ OrionHeartbeat.running self' = true
      ∧ (2%nat ≠ 0%nat →
         ∃ state, HEARTBEAT_STATE disk' = Document state
                  ∧ json_item state "total_pulses"
                    = Some (JInt (0 + Z.of_nat 2))).
Proof.
  assert (sleep_returns (60 * second : Interval)) as Hsleep
    by (intros env; reflexivity).
  split; [reflexivity|]. split; [exact Hsleep|].
  exact (heartbeat_loop_accounting 2 (60 * second) started_heartbeat
           fresh_disk 0 0 eq_refl Hsleep).
Defined.


Lemma pulse_accounts_for_every_execution_witness :
  OrionHeartbeat.pulse_count mixed_heartbeat = JInt 0
  ∧ ∃ p self' disk' env',
      OrionHeartbeat.pulse mixed_heartbeat fresh_disk 0
      = Returned (p, self', disk', env')
      ∧ total_run_count (OrionHeartbeat.tasks self')
        = total_run_count (OrionHeartbeat.tasks mixed_heartbeat)
          + Z.of_nat (length (successes (details p)))
      ∧ total_errors (OrionHeartbeat.tasks self')
        = total_errors (OrionHeartbeat.tasks mixed_heartbeat)
          + Z.of_nat (length (failures (details p)))
      ∧ tasks_executed p
        = Some (JInt (Z.of_nat (length (successes (details p))
                                + length (failures (details p)))))
      ∧ Forall2 at_most_one_execution (OrionHeartbeat.tasks mixed_heartbeat)
          (OrionHeartbeat.tasks self').
Proof.
  split; [reflexivity|].
  exact (pulse_accounts_for_every_execution mixed_heartbeat fresh_disk 0 0
           eq_refl).
Defined.

Lemma pulse_skips_task_not_due_witness :
  OrionHeartbeat.pulse_count idle_heartbeat = JInt 3
  ∧ OrionHeartbeat.tasks idle_heartbeat
    = [] ++ AutonomousTask.ran_at steady 0 :: []
  ∧ AutonomousTask.should_run (AutonomousTask.ran_at steady 0)
      (env_after [] second) = false
  ∧ ∃ p self' disk' env',
      OrionHeartbeat.pulse idle_heartbeat fresh_disk second
      = Returned (p, self', disk', env')
      ∧ OrionHeartbeat.tasks self' !! length ([] : list AutonomousTask.t)
        = Some (AutonomousTask.ran_at steady 0)
      ∧ details p
        = (OrionHeartbeat.run_tasks [] second).1.2
          ++ (OrionHeartbeat.run_tasks [] (env_after [] second)).1.2
      ∧ env' = env_after [] (env_after [] second).
Proof.
  split; [reflexivity|]. split; [reflexivity|]. split; [reflexivity|].
  exact (pulse_skips_task_not_due idle_heartbeat fresh_disk second 3 []
           (AutonomousTask.ran_at steady 0) [] eq_refl eq_refl eq_refl).
Defined.

(** The first pulse after a restart from an empty disk, and after one from
    a snapshot whose count is a string. *)
Example first_pulse_after_restart :
  (tasks_executed
     <$> pulse_record (OrionHeartbeat.init fresh_disk) fresh_disk 0)
  = Some (Some (JInt 6))
  ∧ OrionHeartbeat.pulse (OrionHeartbeat.init odd_disk) odd_disk 0
    = Raised "TypeError".
Proof. split; reflexivity. Qed.

Lemma register_task_position_witness :
  StronglySorted higher_first (OrionHeartbeat.tasks mixed_heartbeat)
  ∧ OrionHeartbeat.tasks (OrionHeartbeat.register_task mixed_heartbeat urgent)
    = filter (λ t, AutonomousTask.priority urgent ≤ AutonomousTask.priority t)
        (OrionHeartbeat.tasks mixed_heartbeat)
      ++ urgent
      :: filter
           (λ t, AutonomousTask.priority t < AutonomousTask.priority urgent)
           (OrionHeartbeat.tasks mixed_heartbeat).
Proof.
  assert (StronglySorted higher_first (OrionHeartbeat.tasks mixed_heartbeat))
    as Hsorted.
  { repeat constructor. unfold higher_first. simpl. lia. }
  split; [exact Hsorted|].
  exact (register_task_position mixed_heartbeat urgent Hsorted).
Defined.

Lemma uptime_str_decomposes_witness :
  OrionHeartbeat.start_time started_heartbeat = Some 0
  ∧ elapsed_exact (clock (3725 * second : Z) - 0)
  ∧ ∃ hours minutes,
      OrionHeartbeat.uptime_str started_heartbeat (3725 * second)
      = pretty hours +:+ "h " +:+ pretty minutes +:+ "m"
      ∧ 0 ≤ minutes < 60
      ∧ hours * 60 + minutes
        = (clock (3725 * second : Z) - 0) `div` (60 * second).
Proof.
  assert (elapsed_exact (clock (3725 * second : Z) - 0)) as Hexact
    by (split; vm_compute; discriminate).
  split; [reflexivity|]. split; [exact Hexact|].
  exact (uptime_str_decomposes started_heartbeat (3725 * second) 0 eq_refl
           Hexact).
Defined.

(** One hour, two minutes and five seconds after the start; and one second
    before it. *)
Example uptime_str_samples :
  OrionHeartbeat.uptime_str started_heartbeat (3725 * second) = "1h 2m"
  ∧ OrionHeartbeat.uptime_str started_heartbeat (- second) = "-1h 59m"
  ∧ OrionHeartbeat.uptime_str mixed_heartbeat (3725 * second)
    = "not_started".
Proof. split_and!; vm_compute; reflexivity. Qed.

Lemma pulse_id_follows_the_clock_witness :
  let later := OrionHeartbeat.set_pulse_count idle_heartbeat (JInt 4) in
  OrionHeartbeat.pulse_count idle_heartbeat = JInt 3
  ∧ OrionHeartbeat.pulse_count later = JInt 4
  ∧ clock (env_after (OrionHeartbeat.tasks idle_heartbeat) second)
    = clock (env_after (OrionHeartbeat.tasks later) second)
  ∧ ∃ p1 p2,
      pulse_record idle_heartbeat fresh_disk second = Some p1
      ∧ pulse_record later fresh_disk second = Some p2
      ∧ HeartbeatPulse.pulse_id p1 = HeartbeatPulse.pulse_id p2
      ∧ HeartbeatPulse.timestamp p1 = HeartbeatPulse.timestamp p2
      ∧ pulse_number p1 = Some (JInt (3 + 1))
      ∧ pulse_number p2 = Some (JInt (4 + 1)).
Proof.
  split; [reflexivity|]. split; [reflexivity|]. split; [reflexivity|].
  exact (pulse_id_follows_the_clock idle_heartbeat fresh_disk second 3
           (OrionHeartbeat.set_pulse_count idle_heartbeat (JInt 4))
           fresh_disk second 4 eq_refl eq_refl eq_refl).
Defined.


(** The first of two goals that look the same reaches 120: it is the one
    that leaves the active goals. *)
Lemma update_progress_moves_the_goal_witness :
  let g := sample_goal "a1" "Erreiche 50 Beweise" 10 in
  list_find (λ g, AutonomousGoals.id g = "a1")
    (AutonomousGoals.active_goals sample_goals) = Some (0%nat, g)
  ∧ ∃ g' self',
      AutonomousGoals.update_progress sample_goals None "a1" 120 (0 : Z)
      = Returned (Some g', self', Some self')
      ∧ AutonomousGoals.id g' = "a1"
      ∧ AutonomousGoals.progress g' = Z.min 100 120
      ∧ AutonomousGoals.goal g' = AutonomousGoals.goal g
      ∧ (length (AutonomousGoals.active_goals self')
         + length (AutonomousGoals.completed_goals self'))%nat
        = (length (AutonomousGoals.active_goals sample_goals)
           + length (AutonomousGoals.completed_goals sample_goals))%nat
      ∧ AutonomousGoals.active_goals self'
        = delete 0%nat (AutonomousGoals.active_goals sample_goals)
      ∧ AutonomousGoals.completed_goals self'
        = AutonomousGoals.completed_goals sample_goals ++ [g']
      ∧ AutonomousGoals.status g' = "completed"
      ∧ AutonomousGoals.progress g' = 100.
Proof.
  split; [reflexivity|].
  exact (update_progress_moves_the_goal sample_goals None "a1" 120 (0 : Z)
           0%nat (sample_goal "a1" "Erreiche 50 Beweise" 10) eq_refl).
Defined.

Lemma single_pulse_is_logged_witness :
  OrionHeartbeat.pulse_count mixed_heartbeat = JInt 0
  ∧ ∃ d self' disk' env' result state,
      OrionHeartbeat.single_pulse mixed_heartbeat fresh_disk 0
      = Returned (d, self', disk', env')
      ∧ HEARTBEAT_LOG disk' = HEARTBEAT_LOG fresh_disk ++ [d]
      ∧ json_item d "action" = Some (JStr "heartbeat")
      ∧ json_item d "result" = Some result
      ∧ json_item result "pulse_number" = Some (JInt (0 + 1))
      ∧ HEARTBEAT_STATE disk' = Document state
      ∧ json_item state "total_pulses" = Some (JInt (0 + 1))
      ∧ json_item state "tasks"
        = Some (JInt (Z.of_nat
                        (length (OrionHeartbeat.tasks mixed_heartbeat))))
      ∧ json_item state "running"
        = Some (JBool (OrionHeartbeat.running mixed_heartbeat)).
Proof.
  split; [reflexivity|].
  exact (single_pulse_is_logged mixed_heartbeat fresh_disk 0 0 eq_refl).
Defined.

Lemma registry_stays_in_order_witness :
  OrionHeartbeat.pulse_count mixed_heartbeat = JInt 0
  ∧ StronglySorted higher_first (OrionHeartbeat.tasks mixed_heartbeat)
  ∧ StronglySorted higher_first
      (OrionHeartbeat.tasks (OrionHeartbeat.init fresh_disk))
  ∧ StronglySorted higher_first
      (OrionHeartbeat.tasks (OrionHeartbeat.register_task mixed_heartbeat
                               urgent))
  ∧ ∃ p self' disk' env',
      OrionHeartbeat.pulse mixed_heartbeat fresh_disk 0
      = Returned (p, self', disk', env')
      ∧ StronglySorted higher_first (OrionHeartbeat.tasks self')
      ∧ AutonomousTask.priority <$> OrionHeartbeat.tasks self'
        = AutonomousTask.priority <$> OrionHeartbeat.tasks mixed_heartbeat
      ∧ AutonomousTask.name <$> OrionHeartbeat.tasks self'
        = AutonomousTask.name <$> OrionHeartbeat.tasks mixed_heartbeat.
Proof.
  assert (StronglySorted higher_first (OrionHeartbeat.tasks mixed_heartbeat))
    as Hsorted.
  { repeat constructor. unfold higher_first. simpl. lia. }
  split; [reflexivity|]. split; [exact Hsorted|].
  exact (registry_stays_in_order mixed_heartbeat fresh_disk 0 0 urgent
           fresh_disk eq_refl Hsorted).
Defined.

Lemma nonpositive_interval_runs_every_pulse_witness :
  OrionHeartbeat.pulse_count eager_heartbeat = JInt 0
  ∧ OrionHeartbeat.tasks eager_heartbeat = [] ++ eager :: []
  ∧ AutonomousTask.interval eager ≤ 0
  ∧ (∀ last, AutonomousTask.last_run eager = Some last →
             last ≤ clock (env_after [] (0 : Z)))
  ∧ ∃ p self' disk' env',
      OrionHeartbeat.pulse eager_heartbeat fresh_disk 0
      = Returned (p, self', disk', env')
      ∧ OrionHeartbeat.executed_entry (AutonomousTask.name eager)
          (AutonomousTask.execute eager (env_after [] (0 : Z))).1.1
        ∈ details p
      ∧ OrionHeartbeat.tasks self' !! length ([] : list AutonomousTask.t)
        = Some (AutonomousTask.execute eager (env_after [] (0 : Z))).1.2.
Proof.
  assert (∀ last, AutonomousTask.last_run eager = Some last →
                  last ≤ clock (env_after [] (0 : Z))) as Hclock.
  { intros last [= <-]. reflexivity. }
  split; [reflexivity|]. split; [reflexivity|]. split; [reflexivity|].
  split; [exact Hclock|].
  exact (nonpositive_interval_runs_every_pulse eager_heartbeat fresh_disk 0 0
           [] eager [] eq_refl eq_refl (Z.le_refl 0) Hclock).
Defined.

